(** * go-rwsheets: row removal, serial dates and styled cells

  A shallow embedding of the package [rwsheets] (files [rwsheets.go] and
  [doc.go]) together with the properties its description states about
  [RemoveRow], [SerialDate], [CellBorders] and [Styler.DateCell].

  Conventions.
  - Go's [int] is the 64-bit two's complement integer of the usual targets:
    a [Z] kept in range, with the wrap-around of [+] and [-] written out.
  - A run-time panic is [None].
  - A Go slice is a window on a backing array: it carries the array from
    its first element up to its capacity, and its length.
  - [float64] is IEEE 754 binary64, computed with [SpecFloat].
  - A Go pointer that may be [nil] is an [option]; functions returning
    [(v, error)] return a pair whose second component is [None] for [nil]. *)

From Stdlib Require Import ZArith Bool Lia Ascii String SpecFloat List.
Import ListNotations.

Local Open Scope Z_scope.

(** ** Machine integers *)

Module GoInt.

Definition bits : Z := 64.
Definition min_int : Z := - 2 ^ (bits - 1).
Definition max_int : Z := 2 ^ (bits - 1) - 1.

(** The value of a mathematical result once stored in an [int]. *)
Definition wrap (z : Z) : Z := (z - min_int) mod 2 ^ bits + min_int.

Definition add (a b : Z) : Z := wrap (a + b).
Definition sub (a b : Z) : Z := wrap (a - b).

Definition in_range (z : Z) : Prop := min_int <= z <= max_int.

End GoInt.

(** ** Slices *)

Section Slices.

Variable A : Type.

(** [array] is the backing array seen from the slice's first element, so
    its length is the capacity; the first [len] cells are the elements. *)
Record slice : Type := mkSlice { array : list A; len : nat }.

Definition cap (s : slice) : nat := length (array s).

Definition elems (s : slice) : list A := firstn (len s) (array s).

(** What every slice built by a Go program satisfies. *)
Definition wf_slice (s : slice) : Prop :=
  (len s <= cap s)%nat /\ Z.of_nat (cap s) <= GoInt.max_int.

Definition nil_slice : slice := mkSlice [] 0.

(** A slice holding exactly [l], with no spare capacity. *)
Definition slice_of (l : list A) : slice := mkSlice l (length l).

(** [s[:hi]]: panics unless [0 <= hi <= cap(s)]. *)
Definition slice_to (s : slice) (hi : Z) : option slice :=
  if (0 <=? hi) && (hi <=? Z.of_nat (cap s))
  then Some (mkSlice (array s) (Z.to_nat hi))
  else None.

(** [s[lo:]]: panics unless [0 <= lo <= len(s)]. *)
Definition slice_from (s : slice) (lo : Z) : option slice :=
  if (0 <=? lo) && (lo <=? Z.of_nat (len s))
  then Some (mkSlice (skipn (Z.to_nat lo) (array s)) (len s - Z.to_nat lo))
  else None.

(** [append(s, t...)].  When the capacity of [s] suffices the elements of
    [t] are written into the backing array of [s] after its length, and
    the cells beyond them are kept.  Otherwise a new array is allocated;
    how much room Go leaves in it is an implementation matter, and the
    model allocates exactly what is needed. *)
Definition append (s t : slice) : slice :=
  let n := (len s + len t)%nat in
  if (n <=? cap s)%nat
  then mkSlice (elems s ++ elems t ++ skipn n (array s)) n
  else mkSlice (elems s ++ elems t) n.

(** ** rwsheets.go: RemoveRow *)

Definition RemoveRow (rows : slice) (rmvIdx : Z) : option slice :=
  if Z.of_nat (len rows) =? rmvIdx then
    (* Let's assume we wanted to remove the last row .. *)
    slice_to rows (GoInt.sub rmvIdx 2)
  else if GoInt.add rmvIdx 1 >? Z.of_nat (len rows) then
    Some rows
  else
    match slice_to rows rmvIdx with
    | None => None
    | Some lo =>
        match slice_from rows (GoInt.add rmvIdx 1) with
        | None => None
        | Some hi => Some (append lo hi)
        end
    end.

End Slices.

Arguments mkSlice {A} _ _.
Arguments array {A} _.
Arguments len {A} _.
Arguments cap {A} _.
Arguments elems {A} _.
Arguments wf_slice {A} _.
Arguments nil_slice {A}.
Arguments slice_of {A} _.
Arguments slice_to {A} _ _.
Arguments slice_from {A} _ _.
Arguments append {A} _ _.
Arguments RemoveRow {A} _ _.

(** ** float64 *)

Definition float64 : Type := spec_float.

Module F64.

Definition prec : Z := 53.
Definition emax : Z := 1024.

(** The conversion [float64(n)] of an integer, rounding to nearest even. *)
Definition of_Z (n : Z) : float64 := binary_normalize prec emax n 0 false.

Definition add : float64 -> float64 -> float64 := SFadd prec emax.
Definition div : float64 -> float64 -> float64 := SFdiv prec emax.

(** The mantissa of [float64(p)] for a positive integer of at most 53
    bits: [p] shifted left until it has 53 bits. *)
Definition mant (p : positive) : positive :=
  Z.to_pos (Zpos p * 2 ^ (53 - Zpos (digits2_pos p))).

(** Same representation: same sign, mantissa and exponent. *)
Definition same (x y : float64) : bool :=
  match x, y with
  | S754_zero s, S754_zero t => Bool.eqb s t
  | S754_infinity s, S754_infinity t => Bool.eqb s t
  | S754_nan, S754_nan => true
  | S754_finite s m e, S754_finite t n f =>
      Bool.eqb s t && Pos.eqb m n && Z.eqb e f
  | _, _ => false
  end.

End F64.

(** ** The parts of Go's package [time] that [SerialDate] calls

    [Time], [Date], [Sub] and [Duration.Hours] follow the documented
    behaviour of the standard library; [time.Parse] itself stays a
    parameter of [SerialDate] below, and [Parse] here is a reference
    parser for layouts made of literal text and the numeric calendar
    elements [2006], [1], [01], [2], [02] and [_2]. *)

Module time.

Local Open Scope string_scope.
Local Open Scope Z_scope.

(** [Duration] is an [int64] count of nanoseconds. *)
Definition Duration : Type := Z.

Definition minDuration : Duration := - 2 ^ 63.
Definition maxDuration : Duration := 2 ^ 63 - 1.

Definition Nanosecond : Duration := 1.
Definition Microsecond : Duration := 1000 * Nanosecond.
Definition Millisecond : Duration := 1000 * Microsecond.
Definition Second : Duration := 1000 * Millisecond.
Definition Minute : Duration := 60 * Second.
Definition Hour : Duration := 60 * Minute.

(** An instant without monotonic clock reading, in UTC: seconds since
    January 1, year 1, 00:00:00 and nanoseconds within the second.  The
    zero value [Time{}] is that origin. *)
Record Time : Type := mkTime { sec : Z; nsec : Z }.

Definition zeroTime : Time := mkTime 0 0.

(** [t.Sub(u)]: the duration [t-u]; when it exceeds what a [Duration]
    stores, the maximum (or minimum) duration is returned. *)
Definition Sub (t u : Time) : Duration :=
  let d := (sec t - sec u) * Second + (nsec t - nsec u) in
  if d <? minDuration then minDuration
  else if d >? maxDuration then maxDuration
  else d.

(** [d.Hours()]: integer division and remainder truncate towards zero. *)
Definition Hours (d : Duration) : float64 :=
  let hour := Z.quot d Hour in
  let nsec := Z.rem d Hour in
  F64.add (F64.of_Z hour) (F64.div (F64.of_Z nsec) (F64.of_Z (60 * 60 * 1000000000))).

Definition isLeap (year : Z) : bool :=
  (Z.rem year 4 =? 0) && (negb (Z.rem year 100 =? 0) || (Z.rem year 400 =? 0)).

(** [daysBefore[m]]: days in a non-leap year before month [m+1]. *)
Definition daysBefore (m : Z) : Z :=
  nth (Z.to_nat m) [0; 31; 59; 90; 120; 151; 181; 212; 243; 273; 304; 334; 365] 0.

Definition daysIn (m year : Z) : Z :=
  if (m =? 2) && isLeap year then 29
  else daysBefore m - daysBefore (m - 1).

(** [norm(hi, lo, base)]: carries [lo] into [hi] so that [0 <= lo < base]. *)
Definition norm (hi lo base : Z) : Z * Z := (hi + lo / base, lo mod base).

(** Days from January 1, year 1 to January 1 of [year], proleptic
    Gregorian calendar. *)
Definition daysSinceYear1 (year : Z) : Z :=
  let y := year - 1 in
  365 * y + y / 4 - y / 100 + y / 400.

(** [Date(year, month, day, hour, min, sec, nsec, UTC)]. *)
Definition Date (year month day hour min sec nsec : Z) : Time :=
  let '(year, m) := norm year (month - 1) 12 in
  let month := m + 1 in
  let '(sec, nsec) := norm sec nsec 1000000000 in
  let '(min, sec) := norm min sec 60 in
  let '(hour, min) := norm hour min 60 in
  let '(day, hour) := norm day hour 24 in
  let d := daysSinceYear1 year + daysBefore (month - 1)
           + (if isLeap year && (3 <=? month) then 1 else 0)
           + (day - 1) in
  mkTime (d * 86400 + hour * 3600 + min * 60 + sec) nsec.


(** *** Layout elements: [nextStdChunk] *)

Inductive Std : Type :=
| stdNone                       (* 0: no element left in the layout *)
| stdLongMonth | stdMonth | stdNumMonth | stdZeroMonth
| stdLongWeekDay | stdWeekDay
| stdDay | stdUnderDay | stdZeroDay
| stdUnderYearDay | stdZeroYearDay
| stdHour | stdHour12 | stdZeroHour12
| stdMinute | stdZeroMinute | stdSecond | stdZeroSecond
| stdLongYear | stdYear
| stdPM | stdpm
| stdTZ
| stdISO8601TZ | stdISO8601SecondsTZ | stdISO8601ShortTZ
| stdISO8601ColonTZ | stdISO8601ColonSecondsTZ
| stdNumTZ | stdNumSecondsTz | stdNumShortTZ
| stdNumColonTZ | stdNumColonSecondsTZ
| stdFracSecond0 (digits : nat) (separator : ascii)
| stdFracSecond9 (digits : nat) (separator : ascii).

Definition code (c : ascii) : Z := Z.of_N (N_of_ascii c).

Definition isDigitChar (c : ascii) : bool :=
  (code "0" <=? code c) && (code c <=? code "9").

(** [isDigit(s, i)]: [s[i]] exists and is a decimal digit. *)
Definition isDigit (s : string) (i : nat) : bool :=
  match String.get i s with
  | Some c => isDigitChar c
  | None => false
  end.

(** [s[n:]], for [n <= len(s)]. *)
Definition drop (n : nat) (s : string) : string :=
  String.substring n (String.length s - n) s.

Definition startsWithLowerCase (s : string) : bool :=
  match s with
  | EmptyString => false
  | String c _ => (code "a" <=? code c) && (code c <=? code "z")
  end.

(** Length of the run of [ch] at the head of [s]. *)
Fixpoint run (ch : ascii) (s : string) : nat :=
  match s with
  | String c rest => if Ascii.eqb c ch then S (run ch rest) else O
  | EmptyString => O
  end.

(** The [switch] of [nextStdChunk] at one position: [s] is [layout[i:]].
    The answer holds the bytes of [s] that still belong to the literal
    prefix (only [_2006] has one), the element and the rest of the layout. *)
Definition stdChunkAt (s : string) : option (string * Std * string) :=
  let starts (p : string) := String.prefix p s in
  let chunk std n := Some (EmptyString, std, drop n s) in
  match s with
  | EmptyString => None
  | String c rest =>
      if Ascii.eqb c "J" then
        if starts "Jan" then
          if starts "January" then chunk stdLongMonth 7%nat
          else if negb (startsWithLowerCase (drop 3 s)) then chunk stdMonth 3%nat
          else None
        else None
      else if Ascii.eqb c "M" then
        if starts "Mon" then
          if starts "Monday" then chunk stdLongWeekDay 6%nat
          else if negb (startsWithLowerCase (drop 3 s)) then chunk stdWeekDay 3%nat
          else None
        else if starts "MST" then chunk stdTZ 3%nat
        else None
      else if Ascii.eqb c "0" then
        if starts "01" then chunk stdZeroMonth 2%nat
        else if starts "02" then chunk stdZeroDay 2%nat
        else if starts "03" then chunk stdZeroHour12 2%nat
        else if starts "04" then chunk stdZeroMinute 2%nat
        else if starts "05" then chunk stdZeroSecond 2%nat
        else if starts "06" then chunk stdYear 2%nat
        else if starts "002" then chunk stdZeroYearDay 3%nat
        else None
      else if Ascii.eqb c "1" then
        if starts "15" then chunk stdHour 2%nat
        else chunk stdNumMonth 1%nat
      else if Ascii.eqb c "2" then
        if starts "2006" then chunk stdLongYear 4%nat
        else chunk stdDay 1%nat
      else if Ascii.eqb c "_" then
        if starts "_2" then
          if starts "_2006" then Some ("_"%string, stdLongYear, drop 5 s)
          else chunk stdUnderDay 2%nat
        else if starts "__2" then chunk stdUnderYearDay 3%nat
        else None
      else if Ascii.eqb c "3" then chunk stdHour12 1%nat
      else if Ascii.eqb c "4" then chunk stdMinute 1%nat
      else if Ascii.eqb c "5" then chunk stdSecond 1%nat
      else if Ascii.eqb c "P" then
        if starts "PM" then chunk stdPM 2%nat else None
      else if Ascii.eqb c "p" then
        if starts "pm" then chunk stdpm 2%nat else None
      else if Ascii.eqb c "-" then
        if starts "-070000" then chunk stdNumSecondsTz 7%nat
        else if starts "-07:00:00" then chunk stdNumColonSecondsTZ 9%nat
        else if starts "-0700" then chunk stdNumTZ 5%nat
        else if starts "-07:00" then chunk stdNumColonTZ 6%nat
        else if starts "-07" then chunk stdNumShortTZ 3%nat
        else None
      else if Ascii.eqb c "Z" then
        if starts "Z070000" then chunk stdISO8601SecondsTZ 7%nat
        else if starts "Z07:00:00" then chunk stdISO8601ColonSecondsTZ 9%nat
        else if starts "Z0700" then chunk stdISO8601TZ 5%nat
        else if starts "Z07:00" then chunk stdISO8601ColonTZ 6%nat
        else if starts "Z07" then chunk stdISO8601ShortTZ 3%nat
        else None
      else if Ascii.eqb c "." || Ascii.eqb c "," then
        match rest with
        | String ch _ =>
            if Ascii.eqb ch "0" || Ascii.eqb ch "9" then
              let n := run ch rest in
              if negb (isDigit rest n) then
                Some (EmptyString,
                      (if Ascii.eqb ch "9" then stdFracSecond9 n c
                       else stdFracSecond0 n c),
                      drop n rest)
              else None
            else None
        | EmptyString => None
        end
      else None
  end.

(** [nextStdChunk(layout)]: the literal text before the first element of
    the layout, that element, and what follows it; [(layout, 0, "")] when
    the layout holds no element. *)
Fixpoint nextStdChunk (layout : string) : string * Std * string :=
  match layout with
  | EmptyString => (EmptyString, stdNone, EmptyString)
  | String c rest =>
      match stdChunkAt layout with
      | Some (pre, std, suffix) => (pre, std, suffix)
      | None =>
          let '(prefix, std, suffix) := nextStdChunk rest in
          (String c prefix, std, suffix)
      end
  end.

(** [*ParseError], the error of [Parse]. *)
Record ParseError : Type := mkParseError {
  Layout : string;
  Value : string;
  LayoutElem : string;
  ValueElem : string;
  Message : string
}.

(** The interface value [error]: [nil] or, here, a [*ParseError]. *)
Definition error : Type := option ParseError.

(** *** Reading a value: [skip], [getnum], [atoi] *)

Fixpoint cutspace (s : string) : string :=
  match s with
  | String c rest => if Ascii.eqb c " " then cutspace rest else s
  | EmptyString => s
  end.

(** The loop of [skip]; the flag tells [errBad].  Every turn shortens
    [prefix], so [fuel] is its length. *)
Fixpoint skipLoop (fuel : nat) (value prefix : string) : string * bool :=
  match prefix, fuel with
  | EmptyString, _ => (value, false)
  | String _ _, O => (value, true)
  | String p0 prest, S fuel =>
      if Ascii.eqb p0 " " then
        match value with
        | String v0 _ =>
            if negb (Ascii.eqb v0 " ") then (value, true)
            else skipLoop fuel (cutspace value) (cutspace prefix)
        | EmptyString => skipLoop fuel (cutspace value) (cutspace prefix)
        end
      else
        match value with
        | String v0 vrest =>
            if Ascii.eqb v0 p0 then skipLoop fuel vrest prest
            else (value, true)
        | EmptyString => (value, true)
        end
  end.

(** [skip(value, prefix)]: removes the literal [prefix] from [value],
    runs of spaces counting as one another. *)
Definition skip (value prefix : string) : string * bool :=
  skipLoop (String.length prefix) value prefix.

Definition digitAt (s : string) (i : nat) : Z :=
  match String.get i s with
  | Some c => code c - code "0"
  | None => 0
  end.

(** [getnum(s, fixed)]: one or two digits ([fixed] forces two). *)
Definition getnum (s : string) (fixed : bool) : Z * string * bool :=
  if negb (isDigit s 0) then (0, s, true)
  else if negb (isDigit s 1) then
    if fixed then (0, s, true)
    else (digitAt s 0, drop 1 s, false)
  else (digitAt s 0 * 10 + digitAt s 1, drop 2 s, false).

(** [leadingInt(s)]: the leading digits of [s] as a [uint64], with its
    two overflow tests, and what follows them. *)
Fixpoint leadingInt (x : Z) (s : string) : Z * string * bool :=
  match s with
  | String c rest =>
      if isDigitChar c then
        if x >? 2 ^ 63 / 10 then (0, EmptyString, true)
        else
          let x := x * 10 + (code c - code "0") in
          if x >? 2 ^ 63 then (0, EmptyString, true)
          else leadingInt x rest
      else (x, s, false)
  | EmptyString => (x, s, false)
  end.

(** [atoi(s)]: an optional sign and digits, nothing else. *)
Definition atoi (s : string) : Z * bool :=
  let '(neg, s) :=
    match s with
    | String c rest =>
        if Ascii.eqb c "-" || Ascii.eqb c "+" then (Ascii.eqb c "-", rest)
        else (false, s)
    | EmptyString => (false, s)
    end in
  let '(q, rem, err) := leadingInt 0 s in
  let x := GoInt.wrap q in
  if err || negb (String.eqb rem EmptyString) then (0, true)
  else (if neg then GoInt.wrap (- x) else x, false).

Definition lowerhex (n : Z) : ascii :=
  match String.get (Z.to_nat n) "0123456789abcdef" with
  | Some c => c
  | None => "0"%char
  end.

Definition dquote : ascii := ascii_of_nat 34.
Definition backslash : ascii := ascii_of_nat 92.

(** [quote(s)]: [s] between double quotes; a quote or a backslash is
    escaped, a byte below space or outside ASCII is written [\xhh]. *)
Fixpoint quoteBody (s : string) : string :=
  match s with
  | EmptyString => String dquote EmptyString
  | String c rest =>
      if (code c >=? 128) || (code c <? 32) then
        String backslash
          (String "x" (String (lowerhex (code c / 16))
             (String (lowerhex (code c mod 16)) (quoteBody rest))))
      else if Ascii.eqb c dquote || Ascii.eqb c backslash then
        String backslash (String c (quoteBody rest))
      else String c (quoteBody rest)
  end.

Definition quote (s : string) : string := String dquote (quoteBody s).

(** *** The reference parser *)

(** After the loop: the defaults of month and day, the validation of the
    day of the month, and the construction of the time in UTC. *)
Definition finish (alayout avalue value : string) (year month day : Z)
  : Time * error :=
  let month := if month <? 0 then 1 else month in
  let day := if day <? 0 then 1 else day in
  if (day <? 1) || (day >? daysIn month year) then
    (zeroTime, Some (mkParseError alayout avalue "" value ": day out of range"))
  else (Date year month day 0 0 0 0, None).

(** The loop of [Parse] over the elements of the layout.  Every turn
    consumes an element, hence at least one byte of [layout]. *)
Fixpoint parseLoop (fuel : nat) (alayout avalue layout value : string)
  (year month day : Z) : Time * error :=
  match fuel with
  | O => (zeroTime, Some (mkParseError alayout avalue layout value ""))
  | S fuel =>
      let '(prefix, std, suffix) := nextStdChunk layout in
      let stdstr :=
        String.substring (String.length prefix)
          (String.length layout - String.length suffix - String.length prefix)
          layout in
      let '(value, bad) := skip value prefix in
      if bad then
        (zeroTime, Some (mkParseError alayout avalue prefix value ""))
      else
        let hold := value in
        let failed := (zeroTime, Some (mkParseError alayout avalue stdstr hold "")) in
        match std with
        | stdNone =>
            if negb (String.length value =? 0)%nat then
              (zeroTime,
               Some (mkParseError alayout avalue "" value
                       (": extra text: " ++ quote value)))
            else finish alayout avalue value year month day
        | stdLongYear =>
            if (String.length value <? 4)%nat || negb (isDigit value 0) then failed
            else
              let p := String.substring 0 4 value in
              let value := drop 4 value in
              let '(year, bad) := atoi p in
              if bad then failed
              else parseLoop fuel alayout avalue suffix value year month day
        | stdNumMonth | stdZeroMonth =>
            let fixed := match std with stdZeroMonth => true | _ => false end in
            let '(month, value, bad) := getnum value fixed in
            if negb bad && ((month <=? 0) || (12 <? month)) then
              (zeroTime,
               Some (mkParseError alayout avalue stdstr value ": month out of range"))
            else if bad then failed
            else parseLoop fuel alayout avalue suffix value year month day
        | stdDay | stdUnderDay | stdZeroDay =>
            let under := match std with stdUnderDay => true | _ => false end in
            let fixed := match std with stdZeroDay => true | _ => false end in
            let value :=
              if under && String.prefix " " value then drop 1 value else value in
            let '(day, value, bad) := getnum value fixed in
            if bad then failed
            else parseLoop fuel alayout avalue suffix value year month day
        | _ =>
            (zeroTime,
             Some (mkParseError alayout avalue stdstr hold
                     ": layout element outside the numeric calendar elements"))
        end
  end.

(** [Parse(layout, value)] for layouts of literal text and numeric
    calendar elements.  Names of months and days, clock, zone and
    day-of-year elements are reported with the last error above; nothing
    below evaluates [Parse] on a layout that holds one. *)
Definition Parse (layout value : string) : Time * error :=
  parseLoop (S (String.length layout)) layout value layout value 0 (-1) (-1).

End time.


(** ** The types of [google.golang.org/api/sheets/v4] that the package fills

    Only the fields this package writes are kept; the others stay at their
    zero value in every cell built here. *)

Module sheets.

Module Color.
Record t : Type := mk { Alpha : float64; Blue : float64; Green : float64; Red : float64 }.
End Color.

Module ColorStyle.
Record t : Type := mk { RgbColor : option Color.t }.
End ColorStyle.

Module Border.
Record t : Type := mk { ColorStyle : option ColorStyle.t; Style : string }.
End Border.

Module Borders.
Record t : Type := mk {
  Bottom : option Border.t;
  Left : option Border.t;
  Right : option Border.t;
  Top : option Border.t
}.
(** [var borders sheets.Borders] *)
Definition zero : t := mk None None None None.
Definition setBottom (b : option Border.t) (x : t) : t := mk b (Left x) (Right x) (Top x).
Definition setLeft (b : option Border.t) (x : t) : t := mk (Bottom x) b (Right x) (Top x).
Definition setRight (b : option Border.t) (x : t) : t := mk (Bottom x) (Left x) b (Top x).
Definition setTop (b : option Border.t) (x : t) : t := mk (Bottom x) (Left x) (Right x) b.
End Borders.

Module NumberFormat.
Record t : Type := mk { Pattern : string; Type_ : string }.
End NumberFormat.

Module TextFormat.
Record t : Type := mk { Bold : bool; FontFamily : string; FontSize : Z }.
End TextFormat.

Module CellFormat.
Record t : Type := mk {
  Borders : option Borders.t;
  HorizontalAlignment : string;
  NumberFormat : option NumberFormat.t;
  TextFormat : option TextFormat.t;
  VerticalAlignment : string
}.
Definition setBorders (b : option Borders.t) (x : t) : t :=
  mk b (HorizontalAlignment x) (NumberFormat x) (TextFormat x) (VerticalAlignment x).
End CellFormat.

Module ExtendedValue.
Record t : Type := mk {
  BoolValue : option bool;
  FormulaValue : option string;
  NumberValue : option float64;
  StringValue : option string
}.
End ExtendedValue.

Module CellData.
Record t : Type := mk {
  UserEnteredFormat : option CellFormat.t;
  UserEnteredValue : option ExtendedValue.t
}.
End CellData.

Module RowData.
Record t : Type := mk { Values : slice CellData.t }.
End RowData.

(** The request and response types of [GetSheetData] and
    [UpdateSheetData].  These functions hand rows over without looking
    into them, so the types take the row type ([*sheets.RowData] in the
    source) as a parameter.  Of [Sheets], [Data] and [Requests] the code
    uses the length and the elements only: they are lists. *)

Module GridRange.
Record t : Type := mk {
  EndColumnIndex : Z;
  EndRowIndex : Z;
  SheetId : Z;
  StartColumnIndex : Z;
  StartRowIndex : Z
}.
End GridRange.

Module UpdateCellsRequest.
Record t (Row : Type) : Type := mk {
  Fields : string;
  Range : option GridRange.t;
  Rows : slice Row
}.
Arguments mk {Row} _ _ _.
Arguments Fields {Row} _.
Arguments Range {Row} _.
Arguments Rows {Row} _.
End UpdateCellsRequest.

Module Request.
Record t (Row : Type) : Type := mk {
  UpdateCells : option (UpdateCellsRequest.t Row)
}.
Arguments mk {Row} _.
Arguments UpdateCells {Row} _.
End Request.

Module BatchUpdateSpreadsheetRequest.
Record t (Row : Type) : Type := mk {
  IncludeSpreadsheetInResponse : bool;
  Requests : list (Request.t Row)
}.
Arguments mk {Row} _ _.
Arguments IncludeSpreadsheetInResponse {Row} _.
Arguments Requests {Row} _.
End BatchUpdateSpreadsheetRequest.

Module GridData.
Record t (Row : Type) : Type := mk { RowData : slice Row }.
Arguments mk {Row} _.
Arguments RowData {Row} _.
End GridData.

Module Sheet.
Record t (Row : Type) : Type := mk { Data : list (GridData.t Row) }.
Arguments mk {Row} _.
Arguments Data {Row} _.
End Sheet.

Module Spreadsheet.
Record t (Row : Type) : Type := mk { Sheets : list (Sheet.t Row) }.
Arguments mk {Row} _.
Arguments Sheets {Row} _.
End Spreadsheet.

End sheets.

(** ** rwsheets.go: values and SerialDate *)

Local Open Scope string_scope.
Local Open Scope Z_scope.

(** [time.Parse] of the standard library, which [SerialDate] calls twice.
    It is a parameter: what is proved for every parser holds for Go's. *)
Class TimeParse : Type :=
  time_Parse : string -> string -> time.Time * time.error.

(** The second call of [SerialDate] reads the constant start date. *)
Definition parses_start_date {P : TimeParse} : Prop :=
  time_Parse "1/2/2006" "12/30/1899" = (time.Date 1899 12 30 0 0 0 0, None).

Definition TextValue (value : string) : sheets.ExtendedValue.t :=
  sheets.ExtendedValue.mk None None None (Some value).

Definition NumberValue (value : float64) : sheets.ExtendedValue.t :=
  sheets.ExtendedValue.mk None None (Some value) None.

Definition SerialDate {P : TimeParse} (value format : string)
  : float64 * time.error :=
  let '(newDate, err) := time_Parse format value in
  match err with
  | Some _ => (F64.of_Z 0, err)
  | None =>
      let '(startDate, err) := time_Parse "1/2/2006" "12/30/1899" in
      match err with
      | Some _ => (F64.of_Z 0, err)
      | None =>
          let days :=
            F64.div (time.Hours (time.Sub newDate startDate)) (F64.of_Z 24) in
          (days, None)
      end
  end.

(** ** doc.go: borders *)

(** [Color(a, b, g, r)] *)
Definition Color (a b g r : float64) : sheets.ColorStyle.t :=
  let color := sheets.Color.mk a b g r in
  sheets.ColorStyle.mk (Some color).

Module BorderConf.
Record t : Type := mk {
  Bottom : bool;
  Left : bool;
  Right : bool;
  Style : string;
  Top : bool;
  Color : option sheets.ColorStyle.t   (* optional: black when not set *)
}.
End BorderConf.

Definition BLACK_COLOR : sheets.ColorStyle.t :=
  Color (F64.of_Z 1) (F64.of_Z 0) (F64.of_Z 0) (F64.of_Z 0).

(** [CellBorders(conf)], for a [conf] that is not [nil] (every caller in
    the package tests it before). *)
Definition CellBorders (conf : BorderConf.t) : sheets.Borders.t :=
  let borders := sheets.Borders.zero in
  let style := BorderConf.Style conf in
  let style := if String.eqb style "" then "SOLID" else style in
  let color := BorderConf.Color conf in
  let color := match color with None => Some BLACK_COLOR | Some _ => color end in
  let borders :=
    if BorderConf.Bottom conf
    then sheets.Borders.setBottom (Some (sheets.Border.mk color style)) borders
    else borders in
  let borders :=
    if BorderConf.Left conf
    then sheets.Borders.setLeft (Some (sheets.Border.mk color style)) borders
    else borders in
  let borders :=
    if BorderConf.Right conf
    then sheets.Borders.setRight (Some (sheets.Border.mk color style)) borders
    else borders in
  let borders :=
    if BorderConf.Top conf
    then sheets.Borders.setTop (Some (sheets.Border.mk color style)) borders
    else borders in
  borders.

(** ** rwsheets.go: BoolValue *)

Definition BoolValue (value : bool) : sheets.ExtendedValue.t :=
  sheets.ExtendedValue.mk (Some value) None None None.

(** ** doc.go: the styler *)

Module Styler.

Record t : Type := mk {
  fontBold : bool;
  fontFamily : string;
  fontSize : Z;
  datePattern : string;
  numberPattern : string;
  horizontalAlignment : string;
  verticalAlignment : string
}.

Definition TextFormat (s : t) : sheets.TextFormat.t :=
  sheets.TextFormat.mk (fontBold s) (fontFamily s) (fontSize s).

Definition DateFormat (s : t) : sheets.NumberFormat.t :=
  sheets.NumberFormat.mk (datePattern s) "DATE".

Definition TextCell (s : t) (value : string) (borders : option BorderConf.t)
  : sheets.CellData.t :=
  let format :=
    sheets.CellFormat.mk None (horizontalAlignment s) None
      (Some (TextFormat s)) (verticalAlignment s) in
  let format :=
    match borders with
    | Some conf => sheets.CellFormat.setBorders (Some (CellBorders conf)) format
    | None => format
    end in
  sheets.CellData.mk (Some format) (Some (TextValue value)).

Definition DateCell {P : TimeParse} (s : t) (date layout : string)
  (borders : option BorderConf.t) : sheets.CellData.t :=
  let '(serialDate, err) := SerialDate date layout in
  match err with
  | Some _ => TextCell s date borders
  | None =>
      let format :=
        sheets.CellFormat.mk None (horizontalAlignment s) (Some (DateFormat s))
          (Some (TextFormat s)) (verticalAlignment s) in
      let format :=
        match borders with
        | Some conf => sheets.CellFormat.setBorders (Some (CellBorders conf)) format
        | None => format
        end in
      sheets.CellData.mk (Some format) (Some (NumberValue serialDate))
  end.

(** The setters.  In the source each one writes a field of [*s] and
    returns [s]: the styler after the call, which is also the styler the
    caller still holds. *)
Definition FontBold (s : t) (bold : bool) : t :=
  mk bold (fontFamily s) (fontSize s) (datePattern s) (numberPattern s)
     (horizontalAlignment s) (verticalAlignment s).

Definition FontFamily (s : t) (fontFamily' : string) : t :=
  mk (fontBold s) fontFamily' (fontSize s) (datePattern s) (numberPattern s)
     (horizontalAlignment s) (verticalAlignment s).

Definition FontSize (s : t) (fontSize' : Z) : t :=
  mk (fontBold s) (fontFamily s) fontSize' (datePattern s) (numberPattern s)
     (horizontalAlignment s) (verticalAlignment s).

Definition DatePattern (s : t) (pattern : string) : t :=
  mk (fontBold s) (fontFamily s) (fontSize s) pattern (numberPattern s)
     (horizontalAlignment s) (verticalAlignment s).

Definition NumberPattern (s : t) (pattern : string) : t :=
  mk (fontBold s) (fontFamily s) (fontSize s) (datePattern s) pattern
     (horizontalAlignment s) (verticalAlignment s).

Definition HorizontalAlignment (s : t) (alignment : string) : t :=
  let alignment := if String.eqb alignment "" then "LEFT" else alignment in
  let alignment := if String.eqb alignment "MIDDLE" then "CENTER" else alignment in
  mk (fontBold s) (fontFamily s) (fontSize s) (datePattern s) (numberPattern s)
     alignment (verticalAlignment s).

Definition VerticalAlignment (s : t) (alignment : string) : t :=
  let alignment := if String.eqb alignment "" then "MIDDLE" else alignment in
  mk (fontBold s) (fontFamily s) (fontSize s) (datePattern s) (numberPattern s)
     (horizontalAlignment s) alignment.

Definition NumberFormat (s : t) : sheets.NumberFormat.t :=
  sheets.NumberFormat.mk (numberPattern s) "NUMBER".

(** The accounting pattern of the source; [q] is the double quote. *)
Definition accountingPattern : string :=
  let q := String (ascii_of_nat 34) EmptyString in
  ("_(" ++ q ++ "$" ++ q ++ "* #,##0.00_);_(" ++ q ++ "$" ++ q
   ++ "* \(#,##0.00\);_(" ++ q ++ "$" ++ q ++ "* " ++ q ++ "-" ++ q
   ++ "??_);_(@_)")%string.

Definition AccountingFormat (s : t) : sheets.NumberFormat.t :=
  sheets.NumberFormat.mk accountingPattern "NUMBER".

Definition BoolCell (s : t) (value : bool) (borders : option BorderConf.t)
  : sheets.CellData.t :=
  let format :=
    sheets.CellFormat.mk None (horizontalAlignment s) None
      (Some (TextFormat s)) (verticalAlignment s) in
  let format :=
    match borders with
    | Some conf => sheets.CellFormat.setBorders (Some (CellBorders conf)) format
    | None => format
    end in
  sheets.CellData.mk (Some format) (Some (BoolValue value)).

Definition NumberCell (s : t) (value : float64) (borders : option BorderConf.t)
  : sheets.CellData.t :=
  let format :=
    sheets.CellFormat.mk None (horizontalAlignment s) (Some (NumberFormat s))
      (Some (TextFormat s)) (verticalAlignment s) in
  let format :=
    match borders with
    | Some conf => sheets.CellFormat.setBorders (Some (CellBorders conf)) format
    | None => format
    end in
  sheets.CellData.mk (Some format) (Some (NumberValue value)).

Definition AccountingCell (s : t) (value : float64)
  (borders : option BorderConf.t) : sheets.CellData.t :=
  let format :=
    sheets.CellFormat.mk None (horizontalAlignment s) (Some (AccountingFormat s))
      (Some (TextFormat s)) (verticalAlignment s) in
  let format :=
    match borders with
    | Some conf => sheets.CellFormat.setBorders (Some (CellBorders conf)) format
    | None => format
    end in
  sheets.CellData.mk (Some format) (Some (NumberValue value)).

(** [CreateHeaderRow]: the loop appends one text cell per header value
    to a slice that starts [nil]; the row is then appended to the [nil]
    slice of rows. *)
Definition CreateHeaderRow (s : t) (headerValues : list string)
  (borders : option BorderConf.t) : slice sheets.RowData.t :=
  let rows := nil_slice in
  let headerCells :=
    fold_left
      (fun headerCells val =>
         append headerCells (slice_of [TextCell s val borders]))
      headerValues nil_slice in
  let headerRow := sheets.RowData.mk headerCells in
  append rows (slice_of [headerRow]).


End Styler.

(** [NewStyler()] *)
Definition NewStyler : Styler.t :=
  Styler.mk false "Verdana" 10 "M/d/yyyy" "#,##0.00_);-#,##0.00" "LEFT" "MIDDLE".


(** A call of one setter, as data: [NewStyler().FontBold(true).FontSize(12)]
    is [chained [SetFontBold true; SetFontSize 12]]. *)
Inductive setting : Type :=
| SetFontBold (bold : bool)
| SetFontFamily (fontFamily : string)
| SetFontSize (fontSize : Z)
| SetDatePattern (pattern : string)
| SetNumberPattern (pattern : string)
| SetHorizontalAlignment (alignment : string)
| SetVerticalAlignment (alignment : string).

Definition call (s : Styler.t) (c : setting) : Styler.t :=
  match c with
  | SetFontBold bold => Styler.FontBold s bold
  | SetFontFamily fontFamily => Styler.FontFamily s fontFamily
  | SetFontSize fontSize => Styler.FontSize s fontSize
  | SetDatePattern pattern => Styler.DatePattern s pattern
  | SetNumberPattern pattern => Styler.NumberPattern s pattern
  | SetHorizontalAlignment alignment => Styler.HorizontalAlignment s alignment
  | SetVerticalAlignment alignment => Styler.VerticalAlignment s alignment
  end.

Definition chained (calls : list setting) : Styler.t :=
  fold_left call calls NewStyler.

(** The field a setter writes. *)
Inductive field : Type :=
| fontBold | fontFamily | fontSize | datePattern | numberPattern
| horizontalAlignment | verticalAlignment.

Definition written (c : setting) : field :=
  match c with
  | SetFontBold _ => fontBold
  | SetFontFamily _ => fontFamily
  | SetFontSize _ => fontSize
  | SetDatePattern _ => datePattern
  | SetNumberPattern _ => numberPattern
  | SetHorizontalAlignment _ => horizontalAlignment
  | SetVerticalAlignment _ => verticalAlignment
  end.

(** How many of the four value fields of an [ExtendedValue] are set. *)
Definition isSet {T : Type} (field : option T) : nat :=
  match field with Some _ => 1 | None => 0 end.

Definition valuesSet (v : sheets.ExtendedValue.t) : nat :=
  (isSet (sheets.ExtendedValue.BoolValue v)
   + isSet (sheets.ExtendedValue.FormulaValue v)
   + isSet (sheets.ExtendedValue.NumberValue v)
   + isSet (sheets.ExtendedValue.StringValue v))%nat.

(** ** rwsheets.go: reading and updating a sheet

    The Sheets client is outside the package: [srv] is the pair of calls
    the two functions make on it.  A call returns a response or an error
    of the client, never both. *)

Section Service.

Variables Row ApiError : Type.

Record Service : Type := mkService {
  (* srv.Spreadsheets.Get(ssid).Ranges(ranges...).IncludeGridData(b).Do() *)
  Spreadsheets_Get :
    string -> list string -> bool -> sheets.Spreadsheet.t Row + ApiError;
  (* srv.Spreadsheets.BatchUpdate(ssid, request).Do(), response dropped *)
  Spreadsheets_BatchUpdate :
    string -> sheets.BatchUpdateSpreadsheetRequest.t Row -> option ApiError
}.

(** The [error] values of these two functions: one made by
    [errors.New], or the error of the client, handed on as it is. *)
Inductive rwError : Type :=
| errors_New (text : string)
| clientError (err : ApiError).

Definition GetSheetData (ssid readRange : string) (srv : Service)
  : slice Row * option rwError :=
  let rows := nil_slice in
  let ranges := [readRange] in
  let noData := errors_New "no sheet data found" in
  (* Get the spreadsheet data *)
  match Spreadsheets_Get srv ssid ranges true with
  | inr err => (rows, Some (clientError err))
  | inl ss =>
      (* Make sure we actually got at least one sheet of data *)
      match sheets.Spreadsheet.Sheets ss with
      | [] => (rows, Some noData)
      | sheet :: _ =>
          (* Make sure we actually have data *)
          match sheets.Sheet.Data sheet with
          | [] => (rows, Some noData)
          | grid :: _ => (sheets.GridData.RowData grid, None)
          end
      end
  end.

Definition UpdateSheetData (ssid : string)
  (endColumnIndex gid startColumnIndex startRowIndex : Z)
  (newVals : slice Row) (srv : Service) : option rwError :=
  let gridRange :=
    sheets.GridRange.mk endColumnIndex
      (GoInt.add startRowIndex (Z.of_nat (len newVals)))
      gid startColumnIndex startRowIndex in
  let updateCells := sheets.UpdateCellsRequest.mk "*" (Some gridRange) newVals in
  let request := sheets.Request.mk (Some updateCells) in
  let batchUpdate :=
    sheets.BatchUpdateSpreadsheetRequest.mk false ([] ++ [request]) in
  (* batchUpdate.MarshalJSON(): the result is dropped *)
  match Spreadsheets_BatchUpdate srv ssid batchUpdate with
  | Some err => Some (clientError err)
  | None => None
  end.

End Service.

Arguments mkService {Row ApiError} _ _.
Arguments Spreadsheets_Get {Row ApiError} _ _ _ _.
Arguments Spreadsheets_BatchUpdate {Row ApiError} _ _ _.
Arguments errors_New {ApiError} _.
Arguments clientError {ApiError} _.
Arguments GetSheetData {Row ApiError} _ _ _.
Arguments UpdateSheetData {Row ApiError} _ _ _ _ _ _ _.


(** * Properties *)

Local Close Scope string_scope.

(** ** Machine integers *)

Lemma wrap_in_range z : GoInt.in_range z -> GoInt.wrap z = z.
Proof.
unfold GoInt.in_range, GoInt.wrap, GoInt.min_int, GoInt.max_int, GoInt.bits.
intros H. rewrite Z.mod_small; lia.
Qed.

Lemma add_in_range a b : GoInt.in_range (a + b) -> GoInt.add a b = a + b.
Proof. apply wrap_in_range. Qed.

Lemma sub_in_range a b : GoInt.in_range (a - b) -> GoInt.sub a b = a - b.
Proof. apply wrap_in_range. Qed.

Lemma add_max_int_1 : GoInt.add GoInt.max_int 1 = GoInt.min_int.
Proof. reflexivity. Qed.

Ltac int_range :=
unfold GoInt.in_range, GoInt.min_int, GoInt.max_int, GoInt.bits in *; lia.

(** ** Slices and RemoveRow *)

Section RemoveRowFacts.

Context {A : Type}.
Implicit Types (rows s t : slice A) (i : Z).

Lemma slice_to_ok s hi :
  0 <= hi <= Z.of_nat (cap s) ->
  slice_to s hi = Some (mkSlice (array s) (Z.to_nat hi)).
Proof.
  intros [H0 H1]. unfold slice_to.
  apply Z.leb_le in H0, H1. now rewrite H0, H1.
Qed.

Lemma slice_to_negative s hi : hi < 0 -> slice_to s hi = None.
Proof.
  intros H. unfold slice_to.
  destruct (0 <=? hi) eqn:E; [apply Z.leb_le in E; lia | reflexivity].
Qed.

Lemma slice_from_ok s lo :
  0 <= lo <= Z.of_nat (len s) ->
  slice_from s lo =
    Some (mkSlice (skipn (Z.to_nat lo) (array s)) (len s - Z.to_nat lo)).
Proof.
  intros [H0 H1]. unfold slice_from.
  apply Z.leb_le in H0, H1. now rewrite H0, H1.
Qed.

Lemma slice_from_negative s lo : lo < 0 -> slice_from s lo = None.
Proof.
  intros H. unfold slice_from.
  destruct (0 <=? lo) eqn:E; [apply Z.leb_le in E; lia | reflexivity].
Qed.

Lemma length_elems s : (len s <= cap s)%nat -> length (elems s) = len s.
Proof. intros H. unfold elems, cap in *. rewrite length_firstn. lia. Qed.

(** The elements of [append s t] are those of [s] followed by those of
    [t], whether or not a new array was needed. *)
Lemma elems_append s t :
  (len s <= cap s)%nat -> (len t <= cap t)%nat ->
  elems (append s t) = elems s ++ elems t.
Proof.
  intros Hs Ht. unfold append.
  pose proof (length_elems s Hs) as Ls. pose proof (length_elems t Ht) as Lt.
  destruct (len s + len t <=? cap s)%nat; unfold elems at 1; cbn [array len].
  - rewrite app_assoc, firstn_app.
    rewrite length_app, Ls, Lt, Nat.sub_diag. cbn [firstn].
    rewrite app_nil_r. apply firstn_all2. rewrite length_app. lia.
  - apply firstn_all2. rewrite length_app. lia.
Qed.

(** The third branch: an index inside the slice, last position included. *)
Lemma RemoveRow_inside rows i :
  wf_slice rows -> 0 <= i < Z.of_nat (len rows) ->
  exists r,
    RemoveRow rows i = Some r /\
    elems r =
      firstn (Z.to_nat i) (elems rows) ++ skipn (S (Z.to_nat i)) (elems rows) /\
    array r =
      firstn (Z.to_nat i) (array rows)
        ++ skipn (S (Z.to_nat i)) (elems rows)
        ++ skipn (len rows - 1) (array rows).
Proof.
  intros [Hlen Hcap] Hi. unfold RemoveRow.
  assert (Hadd : GoInt.add i 1 = i + 1) by (apply add_in_range; int_range).
  rewrite Hadd.
  destruct (Z.of_nat (len rows) =? i) eqn:E1; [apply Z.eqb_eq in E1; lia|].
  destruct (i + 1 >? Z.of_nat (len rows)) eqn:E2;
    [apply Z.gtb_lt in E2; lia|].
  rewrite slice_to_ok by lia. rewrite slice_from_ok by lia.
  replace (Z.to_nat (i + 1)) with (S (Z.to_nat i)) by lia.
  set (n := Z.to_nat i) in *.
  set (lo := mkSlice (array rows) n).
  set (hi := mkSlice (skipn (S n) (array rows)) (len rows - S n)).
  assert (Hn : (n < len rows)%nat) by (subst n; lia).
  assert (Hlo : (len lo <= cap lo)%nat) by (unfold cap in *; subst lo; cbn [array len]; lia).
  assert (Hhi : (len hi <= cap hi)%nat).
  { unfold cap in *. subst hi. cbn [array len]. rewrite length_skipn. lia. }
  assert (Ehi : elems hi = skipn (S n) (elems rows)).
  { unfold elems; subst hi; cbn [array len]. now rewrite skipn_firstn_comm. }
  assert (Elo : elems lo = firstn n (elems rows)).
  { unfold elems; subst lo; cbn [array len]. rewrite firstn_firstn.
    now replace (Nat.min n (len rows)) with n by lia. }
  eexists. split; [reflexivity|]. split.
  - rewrite elems_append by assumption. now rewrite Elo, Ehi.
  - subst lo hi. unfold append, cap. cbn [len array].
    replace (n + (len rows - S n))%nat with (len rows - 1)%nat by lia.
    destruct (len rows - 1 <=? length (array rows))%nat eqn:E3.
    + cbn [array]. unfold elems. cbn [len array].
      now rewrite skipn_firstn_comm.
    + apply Nat.leb_gt in E3. unfold cap in *. lia.
Qed.

(** An index beyond the length that can still be incremented. *)
Lemma RemoveRow_beyond rows i :
  Z.of_nat (len rows) < i < GoInt.max_int -> RemoveRow rows i = Some rows.
Proof.
  intros Hi. unfold RemoveRow.
  rewrite add_in_range by int_range.
  destruct (Z.of_nat (len rows) =? i) eqn:E1; [apply Z.eqb_eq in E1; lia|].
  destruct (i + 1 >? Z.of_nat (len rows)) eqn:E2; [reflexivity|].
  rewrite Z.gtb_ltb in E2. apply Z.ltb_ge in E2. lia.
Qed.

(** A negative index, whatever the rows. *)
Lemma RemoveRow_negative rows i :
  GoInt.in_range i -> i < 0 -> RemoveRow rows i = None.
Proof.
  intros Hr Hneg. unfold RemoveRow.
  destruct (Z.of_nat (len rows) =? i) eqn:E1; [apply Z.eqb_eq in E1; lia|].
  rewrite add_in_range by int_range.
  destruct (i + 1 >? Z.of_nat (len rows)) eqn:E2;
    [apply Z.gtb_lt in E2; lia|].
  now rewrite slice_to_negative.
Qed.

End RemoveRowFacts.

(** *** The claims about RemoveRow *)

(** C1. The description says that removing row 0 from the empty sequence
    gives the empty sequence back without a crash.  In the code the length
    equals the index, so the first branch takes [rows[:0-2]]: the slice
    bound is negative and the call panics. *)
Theorem RemoveRow_empty_at_0_panics (A : Type) :
  RemoveRow (@nil_slice A) 0 = None.
Proof. reflexivity. Qed.

(** C2. When the index equals the length of a sequence of at least two
    rows, the result is the sequence without its last two rows: the rows
    kept are the first [len - 2], in their order. *)
Theorem RemoveRow_at_len_drops_last_two (A : Type) (rows : slice A) :
  wf_slice rows -> (2 <= len rows)%nat ->
  exists r a b,
    RemoveRow rows (Z.of_nat (len rows)) = Some r /\
    elems rows = elems r ++ [a; b] /\
    elems r = firstn (len rows - 2) (elems rows).
Proof.
  intros [Hlen Hcap] H2. unfold RemoveRow.
  rewrite Z.eqb_refl.
  rewrite sub_in_range by (unfold cap in *; int_range).
  rewrite slice_to_ok by lia.
  replace (Z.to_nat (Z.of_nat (len rows) - 2)) with (len rows - 2)%nat by lia.
  set (r := mkSlice (array rows) (len rows - 2)).
  assert (Er : elems r = firstn (len rows - 2) (elems rows)).
  { unfold elems, r; cbn [array len]. rewrite firstn_firstn.
    now replace (Nat.min (len rows - 2) (len rows)) with (len rows - 2)%nat by lia. }
  pose proof (length_elems rows Hlen) as Lrows.
  pose proof (firstn_skipn (len rows - 2) (elems rows)) as Hsplit.
  assert (Ltail : length (skipn (len rows - 2) (elems rows)) = 2%nat)
    by (rewrite length_skipn; lia).
  destruct (skipn (len rows - 2) (elems rows)) as [|a [|b [|c tl]]];
    try discriminate Ltail.
  exists r, a, b. split; [reflexivity|]. split; [|exact Er].
  now rewrite Er.
Qed.

Lemma RemoveRow_at_len_drops_last_two_witness :
  wf_slice (slice_of [10; 20; 30; 40]%nat) /\
  (2 <= len (slice_of [10; 20; 30; 40]%nat))%nat /\
  exists r a b,
    RemoveRow (slice_of [10; 20; 30; 40]%nat) 4 = Some r /\
    elems (slice_of [10; 20; 30; 40]%nat) = elems r ++ [a; b] /\
    elems r = firstn 2 (elems (slice_of [10; 20; 30; 40]%nat)).
Proof.
  assert (W : wf_slice (slice_of [10; 20; 30; 40]%nat))
    by (split; [cbn; lia | vm_compute; discriminate]).
  assert (L : (2 <= len (slice_of [10; 20; 30; 40]%nat))%nat) by (cbn; lia).
  split; [exact W|]. split; [exact L|].
  exact (RemoveRow_at_len_drops_last_two nat (slice_of [10; 20; 30; 40]%nat) W L).
Defined.

(** C3. For an index [i] with [0 <= i < len(R) - 1] the result has one row
    less and is [R] without the row at position [i]: the rows before it
    and the rows after it, in their order. *)
Theorem RemoveRow_excludes_index (A : Type) (R : slice A) (i : Z) :
  wf_slice R -> 0 <= i < Z.of_nat (len R) - 1 ->
  exists r before x after,
    RemoveRow R i = Some r /\
    elems R = before ++ x :: after /\
    length before = Z.to_nat i /\
    elems r = before ++ after /\
    length (elems r) = (length (elems R) - 1)%nat.
Proof.
  intros W Hi.
  destruct (RemoveRow_inside R i W ltac:(lia)) as (r & Hr & Er & _).
  destruct W as [Hlen Hcap].
  pose proof (length_elems R Hlen) as LR.
  set (n := Z.to_nat i) in *.
  assert (Hn : (n < length (elems R))%nat) by (subst n; lia).
  pose proof (firstn_skipn n (elems R)) as Hsplit.
  destruct (skipn n (elems R)) as [|x after] eqn:Eskip.
  { apply (f_equal (@length A)) in Eskip. rewrite length_skipn in Eskip.
    cbn in Eskip. lia. }
  assert (Eafter : skipn (S n) (elems R) = after).
  { replace (S n) with (1 + n)%nat by lia.
    rewrite <- skipn_skipn, Eskip. reflexivity. }
  exists r, (firstn n (elems R)), x, after.
  split; [exact Hr|]. split; [now rewrite Hsplit|].
  split; [rewrite length_firstn; lia|].
  split; [now rewrite Er, Eafter|].
  rewrite Er, length_app, length_firstn, length_skipn. lia.
Qed.

Lemma RemoveRow_excludes_index_witness :
  wf_slice (slice_of [10; 20; 30; 40]%nat) /\
  0 <= 1 < Z.of_nat (len (slice_of [10; 20; 30; 40]%nat)) - 1 /\
  exists r before x after,
    RemoveRow (slice_of [10; 20; 30; 40]%nat) 1 = Some r /\
    elems (slice_of [10; 20; 30; 40]%nat) = before ++ x :: after /\
    length before = Z.to_nat 1 /\
    elems r = before ++ after /\
    length (elems r) = (length (elems (slice_of [10; 20; 30; 40]%nat)) - 1)%nat.
Proof.
  assert (W : wf_slice (slice_of [10; 20; 30; 40]%nat))
    by (split; [cbn; lia | vm_compute; discriminate]).
  assert (I : 0 <= 1 < Z.of_nat (len (slice_of [10; 20; 30; 40]%nat)) - 1)
    by (cbn; lia).
  split; [exact W|]. split; [exact I|].
  exact (RemoveRow_excludes_index nat (slice_of [10; 20; 30; 40]%nat) 1 W I).
Defined.

(** C7. The description says that every index above the length leaves the
    rows unchanged.  The guard of the code is [rmvIdx+1 > len(rows)]: at
    the largest [int] the sum wraps to the smallest one, the guard is not
    taken, and [rows[:rmvIdx]] and [rows[rmvIdx+1:]] panic. *)
Theorem RemoveRow_at_max_int_panics (A : Type) (rows : slice A) :
  Z.of_nat (len rows) < GoInt.max_int ->
  RemoveRow rows GoInt.max_int = None.
Proof.
  intros H. unfold RemoveRow.
  destruct (Z.of_nat (len rows) =? GoInt.max_int) eqn:E1;
    [apply Z.eqb_eq in E1; lia|].
  rewrite add_max_int_1.
  destruct (GoInt.min_int >? Z.of_nat (len rows)) eqn:E2.
  { apply Z.gtb_lt in E2. int_range. }
  rewrite (slice_from_negative rows GoInt.min_int) by int_range.
  now destruct (slice_to rows GoInt.max_int).
Qed.

Lemma RemoveRow_at_max_int_panics_witness :
  Z.of_nat (len (slice_of [10; 20; 30]%nat)) < GoInt.max_int /\
  RemoveRow (slice_of [10; 20; 30]%nat) 9223372036854775807 = None.
Proof.
  assert (H : Z.of_nat (len (slice_of [10; 20; 30]%nat)) < GoInt.max_int)
    by (vm_compute; reflexivity).
  split; [exact H|].
  exact (RemoveRow_at_max_int_panics nat (slice_of [10; 20; 30]%nat) H).
Defined.

(** C8. A negative index is not a no-op: neither guard is taken and
    [rows[:rmvIdx]] has a negative bound, so the call panics.  (So does the
    empty sequence: see [RemoveRow_negative].) *)
Theorem RemoveRow_negative_index_panics (A : Type) (rows : slice A) (rmvIdx : Z) :
  elems rows <> [] -> GoInt.in_range rmvIdx -> rmvIdx < 0 ->
  RemoveRow rows rmvIdx = None.
Proof. intros _. apply RemoveRow_negative. Qed.

Lemma RemoveRow_negative_index_panics_witness :
  elems (slice_of [10; 20; 30]%nat) <> [] /\
  GoInt.in_range (-1) /\ -1 < 0 /\
  RemoveRow (slice_of [10; 20; 30]%nat) (-1) = None.
Proof.
  assert (N : elems (slice_of [10; 20; 30]%nat) <> []) by (cbn; discriminate).
  assert (R : GoInt.in_range (-1)) by (vm_compute; split; discriminate).
  assert (L : -1 < 0) by lia.
  split; [exact N|]. split; [exact R|]. split; [exact L|].
  exact (RemoveRow_negative_index_panics nat (slice_of [10; 20; 30]%nat) (-1) N R L).
Defined.

(** ** float64: integers and exact quotients *)

Lemma digits2_pos_size p : digits2_pos p = Pos.size p.
Proof. induction p; cbn; congruence. Qed.

Lemma digits2_log2 p : Zpos (digits2_pos p) = Z.log2 (Zpos p) + 1.
Proof.
  rewrite digits2_pos_size. destruct p; cbn; try reflexivity; lia.
Qed.

(** A mantissa of 53 bits with an exponent in range is already rounded. *)
Lemma round_canonical s m e :
  Zpos (digits2_pos m) = 53 -> -1074 <= e <= 971 ->
  binary_round_aux F64.prec F64.emax s (Zpos m) e loc_Exact = S754_finite s m e.
Proof.
  intros Hd He.
  unfold binary_round_aux, shr_fexp, Zdigits2, fexp, emin, F64.prec, F64.emax.
  rewrite Hd.
  replace (Z.max (53 + e - 53) (3 - 1024 - 53) - e) with 0 by lia.
  cbn [shr shr_record_of_loc shr_m loc_of_shr_record round_nearest_even].
  rewrite Hd.
  replace (Z.max (53 + e - 53) (3 - 1024 - 53) - e) with 0 by lia.
  cbn [shr shr_record_of_loc shr_m].
  destruct (e <=? 1024 - 53) eqn:E; [reflexivity|].
  apply Z.leb_gt in E. lia.
Qed.

(** One bit more, the last one zero: the mantissa is halved exactly. *)
Lemma round_canonical_double s m e :
  Zpos (digits2_pos m) = 53 -> -1075 <= e <= 970 ->
  binary_round_aux F64.prec F64.emax s (Zpos m~0) e loc_Exact = S754_finite s m (e + 1).
Proof.
  intros Hd He.
  unfold binary_round_aux, shr_fexp, fexp, emin, F64.prec, F64.emax.
  assert (Hd' : Zdigits2 (Zpos m~0) = 54).
  { cbn [Zdigits2 digits2_pos]. rewrite Pos2Z.inj_succ. lia. }
  rewrite Hd'.
  replace (Z.max (54 + e - 53) (3 - 1024 - 53) - e) with 1 by lia.
  cbn [shr shr_record_of_loc iter_pos shr_1 orb shr_m loc_of_shr_record round_nearest_even].
  cbn [Zdigits2]. rewrite Hd.
  replace (Z.max (53 + (e + 1) - 53) (3 - 1024 - 53) - (e + 1)) with 0 by lia.
  cbn [shr shr_record_of_loc shr_m].
  destruct (e + 1 <=? 1024 - 53) eqn:E; [reflexivity|].
  apply Z.leb_gt in E. lia.
Qed.

Lemma Zpos_iter_xO p k : Zpos (Pos.iter xO p k) = Zpos p * 2 ^ Zpos k.
Proof.
  induction k using Pos.peano_ind.
  - cbn. lia.
  - rewrite Pos.iter_succ, Pos2Z.inj_xO, IHk, Pos2Z.inj_succ, Z.pow_succ_r; lia.
Qed.

Lemma Zpos_mant p :
  Zpos (digits2_pos p) <= 53 ->
  Zpos (F64.mant p) = Zpos p * 2 ^ (53 - Zpos (digits2_pos p)).
Proof.
  intros H. unfold F64.mant. rewrite Z2Pos.id; [reflexivity|].
  apply Z.mul_pos_pos; [lia|]. apply Z.pow_pos_nonneg; lia.
Qed.

Lemma digits2_mant p :
  Zpos (digits2_pos p) <= 53 -> Zpos (digits2_pos (F64.mant p)) = 53.
Proof.
  intros H. rewrite digits2_log2, Zpos_mant by assumption.
  rewrite Z.log2_mul_pow2 by lia.
  rewrite digits2_log2. lia.
Qed.

(** [float64(n)] for an integer of at most 53 bits. *)
Lemma binary_round_integer s p :
  Zpos (digits2_pos p) <= 53 ->
  binary_round F64.prec F64.emax s p 0
  = S754_finite s (F64.mant p) (Zpos (digits2_pos p) - 53).
Proof.
  intros H. unfold binary_round, shl_align, fexp, emin, F64.prec, F64.emax.
  replace (Z.max (Zpos (digits2_pos p) + 0 - 53) (3 - 1024 - 53) - 0)
    with (Zpos (digits2_pos p) - 53) by lia.
  replace (Z.max (Zpos (digits2_pos p) + 0 - 53) (3 - 1024 - 53))
    with (Zpos (digits2_pos p) - 53) by lia.
  pose proof (digits2_mant p H) as Hm.
  pose proof (Zpos_mant p H) as Hz.
  destruct (Zpos (digits2_pos p) - 53) as [|d|d] eqn:E.
  - assert (F64.mant p = p) as Ep.
    { apply Pos2Z.inj. rewrite Hz. replace (53 - Zpos (digits2_pos p)) with 0 by lia. lia. }
    rewrite <- Ep at 1. apply round_canonical; [exact Hm | lia].
  - lia.
  - assert (Pos.iter xO p d = F64.mant p) as Ep.
    { apply Pos2Z.inj. rewrite Zpos_iter_xO, Hz. f_equal. f_equal. lia. }
    rewrite Ep. apply round_canonical; [exact Hm | lia].
Qed.

(** An exact quotient of two mantissas of 53 bits. *)
Lemma SFdiv_exact s1 m1 e1 s2 m2 e2 q :
  Zpos (digits2_pos m1) = 53 -> Zpos (digits2_pos m2) = 53 ->
  Zpos (digits2_pos q) = 53 ->
  -1022 <= e1 - e2 - 53 <= 970 ->
  (Zpos m1 * 2 ^ 53 = Zpos q * Zpos m2 ->
   F64.div (S754_finite s1 m1 e1) (S754_finite s2 m2 e2)
   = S754_finite (xorb s1 s2) q (e1 - e2 - 53)) /\
  (Zpos m1 * 2 ^ 53 = Zpos q~0 * Zpos m2 ->
   F64.div (S754_finite s1 m1 e1) (S754_finite s2 m2 e2)
   = S754_finite (xorb s1 s2) q (e1 - e2 - 52)).
Proof.
  intros H1 H2 Hq He.
  assert (Core : forall Q : positive,
            Zpos m1 * 2 ^ 53 = Zpos Q * Zpos m2 ->
            F64.div (S754_finite s1 m1 e1) (S754_finite s2 m2 e2)
            = binary_round_aux F64.prec F64.emax (xorb s1 s2) (Zpos Q)
                (e1 - e2 - 53) loc_Exact).
  { intros Q HQ. unfold F64.div, SFdiv, SFdiv_core_binary.
    unfold Zdigits2. rewrite H1, H2.
    unfold fexp, emin, F64.prec, F64.emax.
    replace (Z.min (Z.max (53 + e1 - (53 + e2) - 53) (3 - 1024 - 53)) (e1 - e2))
      with (e1 - e2 - 53) by lia.
    replace (e1 - e2 - (e1 - e2 - 53)) with 53 by lia.
    rewrite Z.shiftl_mul_pow2 by lia.
    assert (Ediv : Z.div_eucl (Zpos m1 * 2 ^ 53) (Zpos m2) = (Zpos Q, 0)).
    { rewrite HQ.
      pose proof (Z.div_mul (Zpos Q) (Zpos m2) ltac:(lia)) as Hd.
      pose proof (Z.mod_mul (Zpos Q) (Zpos m2) ltac:(lia)) as Hm.
      unfold Z.div, Z.modulo in Hd, Hm.
      destruct (Z.div_eucl (Zpos Q * Zpos m2) (Zpos m2)) as [a b].
      cbn in Hd, Hm. now subst. }
    rewrite Ediv.
    replace (new_location (Zpos m2) 0) with loc_Exact; [reflexivity|].
    unfold new_location, new_location_even, new_location_odd.
    now destruct (Z.even (Zpos m2)). }
  split; intros HQ; rewrite (Core _ HQ).
  - apply round_canonical; [exact Hq | lia].
  - replace (e1 - e2 - 52) with (e1 - e2 - 53 + 1) by lia.
    apply round_canonical_double; [exact Hq | lia].
Qed.

Lemma digits2_le p b : 0 <= b -> Zpos p < 2 ^ b -> Zpos (digits2_pos p) <= b.
Proof.
  intros Hb H. rewrite digits2_log2.
  apply Z.log2_lt_pow2 in H; lia.
Qed.

Lemma digits2_times_24 p :
  Zpos (digits2_pos (24 * p)) = Zpos (digits2_pos p) + 4 \/
  Zpos (digits2_pos (24 * p)) = Zpos (digits2_pos p) + 5.
Proof.
  rewrite !digits2_log2.
  pose proof (Z.log2_spec (Zpos p) ltac:(lia)) as [Hlo Hhi].
  pose proof (Z.log2_nonneg (Zpos p)) as Hnn.
  set (L := Z.log2 (Zpos p)) in *.
  assert (H4 : L + 4 <= Z.log2 (Zpos (24 * p))).
  { apply Z.log2_le_pow2; [lia|].
    rewrite Z.pow_add_r by lia. change (2 ^ 4) with 16. lia. }
  assert (H5 : Z.log2 (Zpos (24 * p)) < L + 6).
  { apply Z.log2_lt_pow2; [lia|].
    rewrite Z.pow_add_r by lia. change (2 ^ 6) with 64.
    rewrite Z.pow_succ_r in Hhi by lia. lia. }
  lia.
Qed.

(** Dividing [float64(24 n)] by [float64(24)] gives [float64(n)]. *)
Lemma div_24_exact s p :
  Zpos p < 2 ^ 48 ->
  F64.div (binary_round F64.prec F64.emax s (24 * p) 0) (F64.of_Z 24)
  = binary_round F64.prec F64.emax s p 0.
Proof.
  intros Hp.
  assert (Hk : Zpos (digits2_pos p) <= 48) by (apply digits2_le; lia).
  assert (H24 : Zpos (digits2_pos (24 * p)) <= 53).
  { apply digits2_le; [lia|]. change (2 ^ 53) with (32 * 2 ^ 48). lia. }
  rewrite (binary_round_integer s (24 * p) H24).
  rewrite (binary_round_integer s p) by lia.
  change (F64.of_Z 24) with (S754_finite false 6755399441055744 (-48)).
  pose proof (digits2_mant (24 * p) H24) as D1.
  pose proof (digits2_mant p ltac:(lia)) as Dq.
  pose proof (Zpos_mant (24 * p) H24) as Z1.
  pose proof (Zpos_mant p ltac:(lia)) as Zq.
  set (dk := Zpos (digits2_pos p)) in *.
  set (d24 := Zpos (digits2_pos (24 * p))) in *.
  assert (Hdk : 1 <= dk) by (subst dk; lia).
  assert (Ea : 2 ^ (53 - dk) = 32 * 2 ^ (48 - dk)).
  { replace (53 - dk) with (5 + (48 - dk)) by lia.
    rewrite Z.pow_add_r by lia. reflexivity. }
  assert (Eb : 2 ^ (49 - dk) = 2 * 2 ^ (48 - dk)).
  { replace (49 - dk) with (1 + (48 - dk)) by lia.
    rewrite Z.pow_add_r by lia. reflexivity. }
  destruct (SFdiv_exact s (F64.mant (24 * p)) (d24 - 53) false 6755399441055744 (-48)
              (F64.mant p) D1 eq_refl Dq) as [Hsame Hdouble].
  { destruct (digits2_times_24 p); lia. }
  replace (xorb s false) with s in * by (now destruct s).
  destruct (digits2_times_24 p) as [E|E]; fold dk d24 in E.
  - rewrite Hdouble.
    + f_equal. lia.
    + rewrite (Pos2Z.inj_xO (F64.mant p)), Z1, Zq, Ea. rewrite E.
      replace (53 - (dk + 4)) with (49 - dk) by lia. rewrite Eb.
      rewrite Pos2Z.inj_mul.
      change (2 ^ 53) with 9007199254740992. lia.
  - rewrite Hsame.
    + f_equal. lia.
    + rewrite Z1, Zq, Ea. rewrite E.
      replace (53 - (dk + 5)) with (48 - dk) by lia.
      rewrite Pos2Z.inj_mul.
      change (2 ^ 53) with 9007199254740992. lia.
Qed.

Lemma of_Z_div_24 n :
  - 2 ^ 48 < n < 2 ^ 48 -> n <> 0 ->
  F64.div (F64.of_Z (24 * n)) (F64.of_Z 24) = F64.of_Z n.
Proof.
  intros Hr Hn. destruct n as [|p|p]; [contradiction|..].
  - change (F64.of_Z (24 * Zpos p)) with (binary_round F64.prec F64.emax false (24 * p) 0).
    apply div_24_exact. lia.
  - change (F64.of_Z (24 * Zneg p)) with (binary_round F64.prec F64.emax true (24 * p) 0).
    apply div_24_exact. lia.
Qed.

(** [Hours] of a whole number of days, divided by 24, is that number. *)
Lemma Hours_whole_days n :
  - 2 ^ 48 < n < 2 ^ 48 ->
  F64.div (time.Hours (n * (24 * time.Hour))) (F64.of_Z 24) = F64.of_Z n.
Proof.
  intros Hr. unfold time.Hours.
  replace (n * (24 * time.Hour)) with (24 * n * time.Hour) by lia.
  rewrite Z.quot_mul, Z.rem_mul by discriminate.
  change (F64.div (F64.of_Z 0) (F64.of_Z (60 * 60 * 1000000000)))
    with (S754_zero false).
  destruct (Z.eq_dec n 0) as [->|Hn]; [reflexivity|].
  rewrite <- (of_Z_div_24 n Hr Hn). f_equal.
  destruct n as [|p|p]; [contradiction|..].
  - change (F64.of_Z (24 * Zpos p))
      with (binary_round F64.prec F64.emax false (24 * p) 0).
    rewrite binary_round_integer; [reflexivity|].
    apply digits2_le; [lia|]. change (2 ^ 53) with (32 * 2 ^ 48). lia.
  - change (F64.of_Z (24 * Zneg p))
      with (binary_round F64.prec F64.emax true (24 * p) 0).
    rewrite binary_round_integer; [reflexivity|].
    apply digits2_le; [lia|]. change (2 ^ 53) with (32 * 2 ^ 48). lia.
Qed.

(** ** SerialDate *)

Section SerialDateFacts.

Context {P : TimeParse}.

(** Both results of [SerialDate] when the first call of [time.Parse]
    returns an error. *)
Lemma SerialDate_Parse_error value layout t e :
  time_Parse layout value = (t, Some e) ->
  SerialDate value layout = (F64.of_Z 0, Some e).
Proof. intros H. unfold SerialDate. now rewrite H. Qed.

(** Both results when it succeeds and the start date is read. *)
Lemma SerialDate_Parse_ok value layout t :
  parses_start_date ->
  time_Parse layout value = (t, None) ->
  SerialDate value layout =
    (F64.div (time.Hours (time.Sub t (time.Date 1899 12 30 0 0 0 0))) (F64.of_Z 24),
     None).
Proof.
  intros Hs H. unfold SerialDate. rewrite H.
  unfold parses_start_date in Hs. now rewrite Hs.
Qed.

(** Within the range of a [Duration] the difference of two midnights is
    the exact number of days between them. *)
Lemma Sub_whole_days t u n :
  time.nsec t = time.nsec u ->
  time.sec t - time.sec u = n * 86400 ->
  -106751 <= n <= 106751 ->
  time.Sub t u = n * (24 * time.Hour).
Proof.
  intros Hn Hs Hr. unfold time.Sub. rewrite Hn, Hs, Z.sub_diag.
  unfold time.minDuration, time.maxDuration, time.Hour, time.Minute,
    time.Second, time.Millisecond, time.Microsecond, time.Nanosecond.
  destruct (_ <? _) eqn:E1; [apply Z.ltb_lt in E1; lia|].
  destruct (_ >? _) eqn:E2; [apply Z.gtb_lt in E2; lia|].
  lia.
Qed.

(** Beyond it the difference is the largest or the smallest duration. *)
Lemma Sub_saturates t u n :
  time.nsec t = time.nsec u ->
  time.sec t - time.sec u = n * 86400 ->
  (106751 < n -> time.Sub t u = time.maxDuration) /\
  (n < -106751 -> time.Sub t u = time.minDuration).
Proof.
  intros Hn Hs. unfold time.Sub. rewrite Hn, Hs, Z.sub_diag.
  unfold time.minDuration, time.maxDuration, time.Second,
    time.Millisecond, time.Microsecond, time.Nanosecond.
  split; intros Hr.
  - destruct (_ <? _) eqn:E1; [apply Z.ltb_lt in E1; lia|].
    destruct (_ >? _) eqn:E2; [reflexivity|].
    rewrite Z.gtb_ltb in E2. apply Z.ltb_ge in E2. lia.
  - destruct (_ <? _) eqn:E1; [reflexivity|]. apply Z.ltb_ge in E1. lia.
Qed.

(** A date that parses to a midnight at most 106751 days from the start
    date: the duration is exact, and [SerialDate] returns that number of
    days, negative before the start date. *)
Lemma SerialDate_whole_days value layout t n :
  parses_start_date ->
  time_Parse layout value = (t, None) ->
  time.nsec t = 0 ->
  time.sec t - time.sec (time.Date 1899 12 30 0 0 0 0) = n * 86400 ->
  -106751 <= n <= 106751 ->
  SerialDate value layout = (F64.of_Z n, None).
Proof.
  intros Hs Hp Hn Hd Hr.
  rewrite <- (Hours_whole_days n) by lia.
  rewrite (SerialDate_Parse_ok _ _ _ Hs Hp).
  assert (Hn' : time.nsec t = time.nsec (time.Date 1899 12 30 0 0 0 0))
    by (rewrite Hn; reflexivity).
  now rewrite (Sub_whole_days _ _ n Hn' Hd Hr).
Qed.

End SerialDateFacts.

(** The reference parser reads the start date. *)
Lemma Parse_start_date : @parses_start_date time.Parse.
Proof. reflexivity. Qed.

(** The date of the README, through [SerialDate_whole_days]. *)
Example SerialDate_2023_03_02 :
  @SerialDate time.Parse "3/2/2023" "1/2/2006" = (F64.of_Z 44987, None).
Proof.
  apply (SerialDate_whole_days (P := time.Parse) "3/2/2023" "1/2/2006"
           (time.Date 2023 3 2 0 0 0 0) 44987 Parse_start_date);
    [reflexivity | reflexivity | reflexivity | lia].
Qed.

(** C4. [SerialDate] fails exactly when [time.Parse] fails on the value
    under the layout: it then returns 0 and the error of [time.Parse], and
    otherwise no error. *)
Theorem SerialDate_fails_as_Parse_fails
  (P : TimeParse) (value layout : string) :
  parses_start_date ->
  snd (SerialDate value layout) = snd (time_Parse layout value) /\
  (snd (time_Parse layout value) <> None ->
   fst (SerialDate value layout) = F64.of_Z 0).
Proof.
  intros Hs.
  destruct (time_Parse layout value) as [t [e|]] eqn:H.
  - rewrite (SerialDate_Parse_error _ _ _ _ H). now split.
  - rewrite (SerialDate_Parse_ok _ _ _ Hs H). cbn. split; [reflexivity|].
    intros C. now contradiction C.
Qed.

Lemma SerialDate_fails_as_Parse_fails_witness :
  @parses_start_date time.Parse /\
  (snd (@SerialDate time.Parse "not-a-date" "1/2/2006")
   = snd (time.Parse "1/2/2006" "not-a-date") /\
   (snd (time.Parse "1/2/2006" "not-a-date") <> None ->
    fst (@SerialDate time.Parse "not-a-date" "1/2/2006") = F64.of_Z 0)) /\
  snd (time.Parse "1/2/2006" "not-a-date")
  = Some (time.mkParseError "1/2/2006" "not-a-date" "1" "not-a-date" "").
Proof.
  split; [exact Parse_start_date|]. split.
  - exact (SerialDate_fails_as_Parse_fails time.Parse "not-a-date" "1/2/2006"
             Parse_start_date).
  - reflexivity.
Defined.

(** C4, as first stated: ["not-a-date"] would fail under every layout.
    Under the layout ["not-a-date"], which holds no layout element, the
    value is the expected literal text: it parses, to January 1 of year 0,
    and [SerialDate] returns a number and no error. *)
Lemma SerialDate_not_a_date_literal_layout :
  time.nextStdChunk "not-a-date" = ("not-a-date"%string, time.stdNone, ""%string) /\
  time.Parse "not-a-date" "not-a-date" = (time.Date 0 1 1 0 0 0 0, None) /\
  @SerialDate time.Parse "not-a-date" "not-a-date"
  = (S754_finite true 7335940973542995 (-36), None).
Proof. repeat split; vm_compute; reflexivity. Qed.

(** C5. The description promises the exact day count for every date that
    parses.  January 1, 2200 is 109575 days after the start date; the
    duration between them does not fit a [Duration], [Sub] returns the
    largest one, and [SerialDate] returns about 106751.99 instead. *)
Theorem SerialDate_year_2200_saturates :
  time.Parse "1/2/2006" "1/1/2200" = (time.Date 2200 1 1 0 0 0 0, None) /\
  time.sec (time.Date 2200 1 1 0 0 0 0) - time.sec (time.Date 1899 12 30 0 0 0 0)
  = 109575 * 86400 /\
  time.Sub (time.Date 2200 1 1 0 0 0 0) (time.Date 1899 12 30 0 0 0 0)
  = time.maxDuration /\
  @SerialDate time.Parse "1/1/2200" "1/2/2006"
  = (S754_finite false 7335940973542995 (-36), None) /\
  F64.same (S754_finite false 7335940973542995 (-36)) (F64.of_Z 109575) = false /\
  F64.of_Z 109575 = S754_finite false 7529936663347200 (-36).
Proof. repeat split; vm_compute; reflexivity. Qed.

(** C6. Under the month/day/year layout [1/2/2006], [SerialDate] maps
    12/30/1899 to 0, 1/1/1900 to 2 (two days after the start date: December
    31 is day 1) and 3/2/2023 to 44987. *)
Theorem SerialDate_examples :
  @SerialDate time.Parse "12/30/1899" "1/2/2006" = (F64.of_Z 0, None) /\
  @SerialDate time.Parse "1/1/1900" "1/2/2006" = (F64.of_Z 2, None) /\
  @SerialDate time.Parse "3/2/2023" "1/2/2006" = (F64.of_Z 44987, None).
Proof. repeat split; vm_compute; reflexivity. Qed.

(** C6, as first stated: 1/1/1900 would map to 1.  It maps to 2. *)
Lemma SerialDate_1900_01_01_is_not_1 :
  @SerialDate time.Parse "1/1/1900" "1/2/2006"
  = (S754_finite false 4503599627370496 (-51), None) /\
  F64.of_Z 1 = S754_finite false 4503599627370496 (-52) /\
  @SerialDate time.Parse "1/1/1900" "1/2/2006" <> (F64.of_Z 1, None).
Proof.
  split; [vm_compute; reflexivity|]. split; [vm_compute; reflexivity|].
  vm_compute. discriminate.
Qed.

(** ** Borders and the styler *)

(** Opaque black: alpha 1, no blue, green or red. *)
Lemma BLACK_COLOR_is_opaque_black :
  BLACK_COLOR =
    sheets.ColorStyle.mk
      (Some (sheets.Color.mk (S754_finite false 4503599627370496 (-52))
               (S754_zero false) (S754_zero false) (S754_zero false))).
Proof. reflexivity. Qed.

(** C10. [CellBorders] sets a border on the sides whose flag is true and
    on no other; each one has the style of the configuration, or SOLID if
    that is empty, and its color, or opaque black if it is [nil]. *)
Theorem CellBorders_sides (conf : BorderConf.t) :
  let style :=
    if String.eqb (BorderConf.Style conf) "" then "SOLID"%string
    else BorderConf.Style conf in
  let color :=
    match BorderConf.Color conf with
    | Some c => c
    | None =>
        sheets.ColorStyle.mk
          (Some (sheets.Color.mk (F64.of_Z 1) (F64.of_Z 0) (F64.of_Z 0) (F64.of_Z 0)))
    end in
  let side (flag : bool) :=
    if flag then Some (sheets.Border.mk (Some color) style) else None in
  CellBorders conf =
    sheets.Borders.mk (side (BorderConf.Bottom conf)) (side (BorderConf.Left conf))
      (side (BorderConf.Right conf)) (side (BorderConf.Top conf)).
Proof.
  destruct conf as [bottom left right style top color].
  unfold CellBorders; cbn [BorderConf.Style BorderConf.Color BorderConf.Bottom
    BorderConf.Left BorderConf.Right BorderConf.Top].
  destruct color; destruct bottom, left, right, top; reflexivity.
Qed.

Section StylerFacts.

Context {P : TimeParse}.

Lemma TextCell_value (s : Styler.t) (value : string) (b : option BorderConf.t) :
  sheets.CellData.UserEnteredValue (Styler.TextCell s value b)
  = Some (TextValue value).
Proof. reflexivity. Qed.

Lemma DateCell_on_error (s : Styler.t) (date layout : string)
  (b : option BorderConf.t) :
  snd (SerialDate date layout) <> None ->
  Styler.DateCell s date layout b = Styler.TextCell s date b.
Proof.
  unfold Styler.DateCell.
  destruct (SerialDate date layout) as [serialDate [e|]]; cbn [snd]; intros H.
  - reflexivity.
  - now contradiction H.
Qed.

Lemma DateCell_on_success (s : Styler.t) (date layout : string)
  (b : option BorderConf.t) :
  snd (SerialDate date layout) = None ->
  Styler.DateCell s date layout b =
    sheets.CellData.mk
      (Some (sheets.CellFormat.mk (option_map CellBorders b)
               (Styler.horizontalAlignment s) (Some (Styler.DateFormat s))
               (Some (Styler.TextFormat s)) (Styler.verticalAlignment s)))
      (Some (NumberValue (fst (SerialDate date layout)))).
Proof.
  unfold Styler.DateCell.
  destruct (SerialDate date layout) as [serialDate [e|]]; cbn [snd fst]; intros H.
  - discriminate H.
  - now destruct b.
Qed.

End StylerFacts.

(** C9. When [SerialDate] fails, [DateCell] is the text cell of the raw
    date string: its value has the string field set to that string and no
    other field, and its format has no number format.  Otherwise the
    value has the number field set to the serial date and no other field,
    and the format carries the date pattern of the styler with the type
    DATE. *)
Theorem DateCell_text_or_number
  (P : TimeParse) (s : Styler.t) (date layout : string)
  (b : option BorderConf.t) :
  (snd (SerialDate date layout) <> None ->
   Styler.DateCell s date layout b = Styler.TextCell s date b /\
   exists format value,
     sheets.CellData.UserEnteredFormat (Styler.DateCell s date layout b)
     = Some format /\
     sheets.CellData.UserEnteredValue (Styler.DateCell s date layout b)
     = Some value /\
     sheets.ExtendedValue.StringValue value = Some date /\
     sheets.ExtendedValue.NumberValue value = None /\
     sheets.ExtendedValue.BoolValue value = None /\
     sheets.ExtendedValue.FormulaValue value = None /\
     sheets.CellFormat.NumberFormat format = None) /\
  (snd (SerialDate date layout) = None ->
   exists format value numberFormat,
     sheets.CellData.UserEnteredFormat (Styler.DateCell s date layout b)
     = Some format /\
     sheets.CellData.UserEnteredValue (Styler.DateCell s date layout b)
     = Some value /\
     sheets.ExtendedValue.NumberValue value = Some (fst (SerialDate date layout)) /\
     sheets.ExtendedValue.StringValue value = None /\
     sheets.ExtendedValue.BoolValue value = None /\
     sheets.ExtendedValue.FormulaValue value = None /\
     sheets.CellFormat.NumberFormat format = Some numberFormat /\
     sheets.NumberFormat.Pattern numberFormat = Styler.datePattern s /\
     sheets.NumberFormat.Type_ numberFormat = "DATE"%string).
Proof.
  split; intros H.
  - split; [now apply DateCell_on_error|].
    rewrite (DateCell_on_error s date layout b H).
    destruct b; eexists; eexists; repeat split.
  - rewrite (DateCell_on_success s date layout b H).
    eexists. eexists. eexists. repeat split.
Qed.

Lemma DateCell_text_or_number_witness :
  (snd (@SerialDate time.Parse "soon" "2006-01-02") <> None /\
   exists format value,
     sheets.CellData.UserEnteredFormat
       (@Styler.DateCell time.Parse NewStyler "soon" "2006-01-02" None)
     = Some format /\
     sheets.CellData.UserEnteredValue
       (@Styler.DateCell time.Parse NewStyler "soon" "2006-01-02" None)
     = Some value /\
     sheets.ExtendedValue.StringValue value = Some "soon"%string /\
     sheets.ExtendedValue.NumberValue value = None /\
     sheets.ExtendedValue.BoolValue value = None /\
     sheets.ExtendedValue.FormulaValue value = None /\
     sheets.CellFormat.NumberFormat format = None) /\
  (snd (@SerialDate time.Parse "2023-03-02" "2006-01-02") = None /\
   fst (@SerialDate time.Parse "2023-03-02" "2006-01-02") = F64.of_Z 44987 /\
   exists format value numberFormat,
     sheets.CellData.UserEnteredFormat
       (@Styler.DateCell time.Parse NewStyler "2023-03-02" "2006-01-02" None)
     = Some format /\
     sheets.CellData.UserEnteredValue
       (@Styler.DateCell time.Parse NewStyler "2023-03-02" "2006-01-02" None)
     = Some value /\
     sheets.ExtendedValue.NumberValue value
     = Some (fst (@SerialDate time.Parse "2023-03-02" "2006-01-02")) /\
     sheets.ExtendedValue.StringValue value = None /\
     sheets.ExtendedValue.BoolValue value = None /\
     sheets.ExtendedValue.FormulaValue value = None /\
     sheets.CellFormat.NumberFormat format = Some numberFormat /\
     sheets.NumberFormat.Pattern numberFormat = Styler.datePattern NewStyler /\
     sheets.NumberFormat.Type_ numberFormat = "DATE"%string).
Proof.
  split.
  - assert (E : snd (@SerialDate time.Parse "soon" "2006-01-02") <> None)
      by (vm_compute; discriminate).
    split; [exact E|].
    exact (proj2 (proj1 (DateCell_text_or_number time.Parse NewStyler
                           "soon" "2006-01-02" None) E)).
  - assert (E : snd (@SerialDate time.Parse "2023-03-02" "2006-01-02") = None)
      by (vm_compute; reflexivity).
    split; [exact E|]. split; [vm_compute; reflexivity|].
    exact (proj2 (DateCell_text_or_number time.Parse NewStyler
                    "2023-03-02" "2006-01-02" None) E).
Defined.

(** * Further properties *)

(** ** RemoveRow on every index *)

Lemma Some_eq {T : Type} (a b : T) : Some a = Some b -> a = b.
Proof. intros H. congruence. Qed.

Section RemoveRowMore.

Context {A : Type}.
Implicit Types (rows r : slice A) (i : Z).

Lemma RemoveRow_at_len rows :
  wf_slice rows ->
  RemoveRow rows (Z.of_nat (len rows)) =
    if (2 <=? len rows)%nat
    then Some (mkSlice (array rows) (len rows - 2))
    else None.
Proof.
  intros [Hlen Hcap]. unfold RemoveRow. rewrite Z.eqb_refl.
  rewrite sub_in_range by (unfold cap in *; int_range).
  destruct (2 <=? len rows)%nat eqn:E.
  - apply Nat.leb_le in E. rewrite slice_to_ok by lia.
    f_equal. f_equal. lia.
  - apply Nat.leb_gt in E. apply slice_to_negative. lia.
Qed.

Lemma elems_shorter rows n :
  (n <= len rows)%nat ->
  elems (mkSlice (array rows) n) = firstn n (elems rows).
Proof.
  intros H. unfold elems; cbn [array len]. rewrite firstn_firstn.
  now replace (Nat.min n (len rows)) with n by lia.
Qed.

(** The value of the third branch, backing array and length. *)
Lemma RemoveRow_inside_value rows i :
  wf_slice rows -> 0 <= i < Z.of_nat (len rows) ->
  RemoveRow rows i =
    Some (mkSlice
            (firstn (Z.to_nat i) (array rows)
               ++ skipn (S (Z.to_nat i)) (elems rows)
               ++ skipn (len rows - 1) (array rows))
            (len rows - 1)).
Proof.
  intros [Hlen Hcap] Hi. unfold RemoveRow.
  rewrite add_in_range by int_range.
  destruct (Z.of_nat (len rows) =? i) eqn:E1; [apply Z.eqb_eq in E1; lia|].
  destruct (i + 1 >? Z.of_nat (len rows)) eqn:E2;
    [apply Z.gtb_lt in E2; lia|].
  rewrite slice_to_ok by lia. rewrite slice_from_ok by lia.
  replace (Z.to_nat (i + 1)) with (S (Z.to_nat i)) by lia.
  set (n := Z.to_nat i).
  assert (Hn : (n < len rows)%nat) by (subst n; lia).
  unfold append, cap, elems; cbn [array len].
  replace (n + (len rows - S n))%nat with (len rows - 1)%nat by lia.
  destruct (len rows - 1 <=? length (array rows))%nat eqn:E3.
  - now rewrite skipn_firstn_comm.
  - apply Nat.leb_gt in E3. unfold cap in *. lia.
Qed.

(** The largest [int]: the guard wraps and the slicing panics. *)
Lemma RemoveRow_at_max_int_any rows :
  Z.of_nat (len rows) < GoInt.max_int ->
  RemoveRow rows GoInt.max_int = None.
Proof.
  intros H. unfold RemoveRow.
  destruct (Z.of_nat (len rows) =? GoInt.max_int) eqn:E1;
    [apply Z.eqb_eq in E1; lia|].
  rewrite add_max_int_1.
  destruct (GoInt.min_int >? Z.of_nat (len rows)) eqn:E2.
  { apply Z.gtb_lt in E2. int_range. }
  rewrite (slice_from_negative rows GoInt.min_int) by int_range.
  now destruct (slice_to rows GoInt.max_int).
Qed.

(** The rows around an index inside the slice. *)
Lemma elems_split rows i :
  (len rows <= cap rows)%nat -> 0 <= i < Z.of_nat (len rows) ->
  exists before x after,
    elems rows = before ++ x :: after /\
    before = firstn (Z.to_nat i) (elems rows) /\
    after = skipn (S (Z.to_nat i)) (elems rows) /\
    length before = Z.to_nat i /\
    (length before + length after = len rows - 1)%nat.
Proof.
  intros Hlen Hi.
  pose proof (length_elems rows Hlen) as L.
  set (n := Z.to_nat i).
  assert (Hn : (n < length (elems rows))%nat) by (subst n; lia).
  pose proof (firstn_skipn n (elems rows)) as Hsplit.
  destruct (skipn n (elems rows)) as [|x after] eqn:Eskip.
  { apply (f_equal (@length A)) in Eskip. rewrite length_skipn in Eskip.
    cbn in Eskip. lia. }
  assert (Eafter : skipn (S n) (elems rows) = after).
  { replace (S n) with (1 + n)%nat by lia.
    rewrite <- skipn_skipn, Eskip. reflexivity. }
  exists (firstn n (elems rows)), x, after.
  split; [now rewrite Hsplit|]. split; [reflexivity|].
  split; [now rewrite Eafter|].
  split; [rewrite length_firstn; lia|].
  rewrite length_firstn, <- Eafter, length_skipn. lia.
Qed.

(** The elements of the result of the third branch. *)
Lemma elems_inside_value rows n :
  (len rows <= cap rows)%nat -> (n < len rows)%nat ->
  elems (mkSlice
           (firstn n (array rows) ++ skipn (S n) (elems rows)
              ++ skipn (len rows - 1) (array rows))
           (len rows - 1))
  = firstn n (elems rows) ++ skipn (S n) (elems rows).
Proof.
  intros Hlen Hn. pose proof (length_elems rows Hlen) as L.
  unfold elems at 1; cbn [array len].
  rewrite app_assoc, firstn_app.
  assert (Lfront : length (firstn n (array rows) ++ skipn (S n) (elems rows))
                   = (len rows - 1)%nat).
  { rewrite length_app, length_firstn, length_skipn. unfold cap in *. lia. }
  rewrite Lfront, Nat.sub_diag. cbn [firstn]. rewrite app_nil_r.
  rewrite firstn_all2 by lia.
  f_equal. unfold elems. rewrite firstn_firstn.
  now replace (Nat.min n (len rows)) with n by lia.
Qed.

(** Its backing array has the length of the old one. *)
Lemma cap_inside_value rows n k :
  (len rows <= cap rows)%nat -> (n < len rows)%nat ->
  cap (mkSlice
         (firstn n (array rows) ++ skipn (S n) (elems rows)
            ++ skipn (len rows - 1) (array rows)) k)
  = cap rows.
Proof.
  intros Hlen Hn. unfold cap at 1. unfold array at 1.
  rewrite !length_app, length_firstn, !length_skipn.
  rewrite (length_elems rows Hlen). unfold cap in *. lia.
Qed.

End RemoveRowMore.

(** X1. The last valid index removes the last row and nothing else
    (unlike the index equal to the length, which removes two). *)
Theorem RemoveRow_last_index_removes_last (A : Type) (rows : slice A) :
  wf_slice rows -> (1 <= len rows)%nat ->
  exists r x,
    RemoveRow rows (Z.of_nat (len rows) - 1) = Some r /\
    elems rows = elems r ++ [x].
Proof.
  intros W H1. pose proof W as [Hlen Hcap].
  pose proof (length_elems rows Hlen) as L.
  rewrite (RemoveRow_inside_value rows _ W) by lia.
  replace (Z.to_nat (Z.of_nat (len rows) - 1)) with (len rows - 1)%nat by lia.
  destruct (elems_split rows (Z.of_nat (len rows) - 1) Hlen ltac:(lia))
    as (before & x & after & Hsplit & Hb & Ha & Lb & Lsum).
  replace (Z.to_nat (Z.of_nat (len rows) - 1)) with (len rows - 1)%nat in * by lia.
  assert (E : after = []) by (destruct after; [reflexivity | cbn in Lsum; lia]).
  rewrite E in Hsplit, Ha.
  eexists. exists x. split; [reflexivity|].
  rewrite elems_inside_value by lia.
  rewrite <- Hb, <- Ha, app_nil_r. exact Hsplit.
Qed.

Lemma RemoveRow_last_index_removes_last_witness :
  wf_slice (slice_of [10; 20; 30]%nat) /\
  (1 <= len (slice_of [10; 20; 30]%nat))%nat /\
  exists r x,
    RemoveRow (slice_of [10; 20; 30]%nat) 2 = Some r /\
    elems (slice_of [10; 20; 30]%nat) = elems r ++ [x].
Proof.
  assert (W : wf_slice (slice_of [10; 20; 30]%nat))
    by (split; [cbn; lia | vm_compute; discriminate]).
  assert (L : (1 <= len (slice_of [10; 20; 30]%nat))%nat) by (cbn; lia).
  split; [exact W|]. split; [exact L|].
  exact (RemoveRow_last_index_removes_last nat (slice_of [10; 20; 30]%nat) W L).
Defined.

(** X2. An index above the length, the largest [int] excepted, is a
    silent no-op: the very slice that was passed comes back. *)
Theorem RemoveRow_above_length_is_noop (A : Type) (rows : slice A) (i : Z) :
  Z.of_nat (len rows) < i -> i < GoInt.max_int ->
  RemoveRow rows i = Some rows.
Proof. intros H1 H2. apply RemoveRow_beyond. lia. Qed.

Lemma RemoveRow_above_length_is_noop_witness :
  Z.of_nat (len (slice_of [10; 20; 30]%nat)) < 8 /\ 8 < GoInt.max_int /\
  RemoveRow (slice_of [10; 20; 30]%nat) 8 = Some (slice_of [10; 20; 30]%nat).
Proof.
  assert (H1 : Z.of_nat (len (slice_of [10; 20; 30]%nat)) < 8) by (cbn; lia).
  assert (H2 : 8 < GoInt.max_int) by (vm_compute; reflexivity).
  split; [exact H1|]. split; [exact H2|].
  exact (RemoveRow_above_length_is_noop nat (slice_of [10; 20; 30]%nat) 8 H1 H2).
Defined.

(** X3. [RemoveRow] panics in three cases and no other: a negative index,
    the index equal to the length of a slice of fewer than two rows, and
    the largest [int]. *)
Theorem RemoveRow_panics_iff (A : Type) (rows : slice A) (i : Z) :
  wf_slice rows -> GoInt.in_range i ->
  RemoveRow rows i = None <->
  i < 0 \/
  (i = Z.of_nat (len rows) /\ (len rows < 2)%nat) \/
  (i = GoInt.max_int /\ Z.of_nat (len rows) < GoInt.max_int).
Proof.
  intros W Hr. pose proof W as [Hlen Hcap].
  destruct (Z.ltb_spec i 0) as [Hneg|Hpos].
  { split; [intros _; now left | intros _; now apply RemoveRow_negative]. }
  destruct (Z.eq_dec i (Z.of_nat (len rows))) as [->|Hne].
  { rewrite (RemoveRow_at_len rows W).
    destruct (2 <=? len rows)%nat eqn:E.
    - apply Nat.leb_le in E. split; [discriminate|].
      intros [H|[[_ H]|[H1 H2]]]; lia.
    - apply Nat.leb_gt in E. split; [intros _; right; left; now split|reflexivity]. }
  destruct (Z.ltb_spec i (Z.of_nat (len rows))) as [Hin|Hout].
  { destruct (RemoveRow_inside rows i W ltac:(lia)) as (r & Hr' & _).
    rewrite Hr'. split; [discriminate|].
    intros [H|[[H _]|[H1 H2]]]; [lia | lia |].
    unfold cap in *. int_range. }
  destruct (Z.eq_dec i GoInt.max_int) as [->|Hmax].
  { split.
    - intros _. right; right. split; [reflexivity | lia].
    - intros _. apply RemoveRow_at_max_int_any. lia. }
  rewrite RemoveRow_beyond by int_range.
  split; [discriminate|].
  intros [H|[[H _]|[H1 H2]]]; lia.
Qed.

Lemma RemoveRow_panics_iff_witness :
  wf_slice (slice_of [10]%nat) /\ GoInt.in_range 1 /\
  (RemoveRow (slice_of [10]%nat) 1 = None <->
   1 < 0 \/
   (1 = Z.of_nat (len (slice_of [10]%nat)) /\ (len (slice_of [10]%nat) < 2)%nat) \/
   (1 = GoInt.max_int /\ Z.of_nat (len (slice_of [10]%nat)) < GoInt.max_int)).
Proof.
  assert (W : wf_slice (slice_of [10]%nat))
    by (split; [cbn; lia | vm_compute; discriminate]).
  assert (R : GoInt.in_range 1) by (vm_compute; split; discriminate).
  split; [exact W|]. split; [exact R|].
  exact (RemoveRow_panics_iff nat (slice_of [10]%nat) 1 W R).
Defined.

(** X4. Removing a row at an index inside the slice writes into the
    backing array of the argument: no array is allocated, the capacity is
    kept, and the slice the caller passed, read again after the call,
    holds the result followed by a second copy of its old last row. *)
Theorem RemoveRow_writes_callers_array (A : Type) (rows : slice A) (i : Z) :
  wf_slice rows -> 0 <= i < Z.of_nat (len rows) ->
  exists r z,
    RemoveRow rows i = Some r /\
    cap r = cap rows /\
    nth_error (elems rows) (len rows - 1) = Some z /\
    elems (mkSlice (array r) (len rows)) = elems r ++ [z].
Proof.
  intros W Hi. pose proof W as [Hlen Hcap].
  pose proof (length_elems rows Hlen) as L.
  rewrite (RemoveRow_inside_value rows i W Hi).
  set (n := Z.to_nat i).
  assert (Hn : (n < len rows)%nat) by (subst n; lia).
  set (front := firstn n (array rows) ++ skipn (S n) (elems rows)).
  assert (Lfront : length front = (len rows - 1)%nat).
  { subst front. rewrite length_app, length_firstn, length_skipn.
    unfold cap in *. lia. }
  assert (Etail : skipn (len rows - 1) (array rows)
                  = skipn (len rows - 1) (elems rows) ++ skipn (len rows) (array rows)).
  { unfold elems. rewrite skipn_firstn_comm.
    replace (len rows - (len rows - 1))%nat with 1%nat by lia.
    rewrite <- (firstn_skipn 1 (skipn (len rows - 1) (array rows))) at 1.
    f_equal. rewrite skipn_skipn. f_equal. lia. }
  destruct (skipn (len rows - 1) (elems rows)) as [|z tl] eqn:Elast.
  { apply (f_equal (@length A)) in Elast. rewrite length_skipn in Elast.
    cbn in Elast. lia. }
  assert (tl = []).
  { apply (f_equal (@length A)) in Elast. rewrite length_skipn in Elast.
    cbn in Elast. destruct tl; [reflexivity | cbn in Elast; lia]. }
  subst tl.
  assert (Ez : nth_error (elems rows) (len rows - 1) = Some z).
  { rewrite <- (firstn_skipn (len rows - 1) (elems rows)), Elast.
    rewrite nth_error_app2 by (rewrite length_firstn; lia).
    rewrite length_firstn.
    replace (len rows - 1 - Nat.min (len rows - 1) (length (elems rows)))%nat
      with 0%nat by lia.
    reflexivity. }
  assert (Harr : firstn n (array rows) ++ skipn (S n) (elems rows)
                   ++ skipn (len rows - 1) (array rows)
                 = front ++ z :: skipn (len rows) (array rows)).
  { subst front. rewrite Etail. cbn [app]. now rewrite app_assoc. }
  rewrite Harr. clearbody front.
  eexists. exists z. split; [reflexivity|].
  split.
  { unfold cap in *; cbn [array].
    rewrite length_app, Lfront. cbn [length]. rewrite length_skipn. lia. }
  split; [exact Ez|].
  unfold elems; cbn [array len].
  rewrite !firstn_app, Lfront, Nat.sub_diag.
  replace (len rows - (len rows - 1))%nat with 1%nat by lia.
  rewrite !(firstn_all2 front) by lia. cbn [firstn].
  now rewrite app_nil_r.
Qed.

Lemma RemoveRow_writes_callers_array_witness :
  wf_slice (slice_of [10; 20; 30]%nat) /\
  0 <= 0 < Z.of_nat (len (slice_of [10; 20; 30]%nat)) /\
  exists r z,
    RemoveRow (slice_of [10; 20; 30]%nat) 0 = Some r /\
    cap r = cap (slice_of [10; 20; 30]%nat) /\
    nth_error (elems (slice_of [10; 20; 30]%nat))
      (len (slice_of [10; 20; 30]%nat) - 1) = Some z /\
    elems (mkSlice (array r) (len (slice_of [10; 20; 30]%nat))) = elems r ++ [z].
Proof.
  assert (W : wf_slice (slice_of [10; 20; 30]%nat))
    by (split; [cbn; lia | vm_compute; discriminate]).
  assert (I : 0 <= 0 < Z.of_nat (len (slice_of [10; 20; 30]%nat))) by (cbn; lia).
  split; [exact W|]. split; [exact I|].
  exact (RemoveRow_writes_callers_array nat (slice_of [10; 20; 30]%nat) 0 W I).
Defined.

(** X5. Whatever the index, a result of [RemoveRow] is again a
    well-formed slice, it holds rows of the argument only, and it is at
    most two rows shorter and never longer. *)
Theorem RemoveRow_result_within_rows (A : Type) (rows r : slice A) (i : Z) :
  wf_slice rows -> GoInt.in_range i ->
  RemoveRow rows i = Some r ->
  wf_slice r /\
  incl (elems r) (elems rows) /\
  (len rows - 2 <= len r <= len rows)%nat.
Proof.
  intros W Hr H. pose proof W as [Hlen Hcap].
  destruct (Z.ltb_spec i 0) as [Hneg|Hpos].
  { rewrite RemoveRow_negative in H by assumption. discriminate H. }
  destruct (Z.eq_dec i (Z.of_nat (len rows))) as [->|Hne].
  { rewrite (RemoveRow_at_len rows W) in H.
    destruct (2 <=? len rows)%nat eqn:E; [|discriminate H].
    apply Nat.leb_le in E. injection H as <-.
    split; [split; unfold cap in *; cbn [array len]; lia|].
    split; [|cbn [len]; lia].
    rewrite elems_shorter by lia. intros x Hx.
    rewrite <- (firstn_skipn (len rows - 2) (elems rows)).
    apply in_or_app. now left. }
  destruct (Z.ltb_spec i (Z.of_nat (len rows))) as [Hin|Hout].
  { rewrite (RemoveRow_inside_value rows i W ltac:(lia)) in H.
    apply Some_eq in H. subst r.
    destruct (elems_split rows i Hlen ltac:(lia))
      as (before & x & after & Hsplit & Hb & Ha & Lb & Lsum).
    split.
    { unfold wf_slice. rewrite cap_inside_value by lia.
      unfold len at 1. lia. }
    split; [|cbn [len]; lia].
    rewrite elems_inside_value by lia.
    rewrite <- Hb, <- Ha, Hsplit. intros y Hy.
    apply in_app_or in Hy. apply in_or_app.
    destruct Hy; [now left | right; now right]. }
  destruct (Z.eq_dec i GoInt.max_int) as [->|Hmax].
  { rewrite RemoveRow_at_max_int_any in H by lia. discriminate H. }
  rewrite RemoveRow_beyond in H by int_range. injection H as <-.
  split; [exact W|]. split; [apply incl_refl | lia].
Qed.

Lemma RemoveRow_result_within_rows_witness :
  wf_slice (slice_of [10; 20; 30]%nat) /\ GoInt.in_range 3 /\
  RemoveRow (slice_of [10; 20; 30]%nat) 3 = Some (mkSlice [10; 20; 30]%nat 1) /\
  wf_slice (mkSlice [10; 20; 30]%nat 1) /\
  incl (elems (mkSlice [10; 20; 30]%nat 1)) (elems (slice_of [10; 20; 30]%nat)) /\
  (len (slice_of [10; 20; 30]%nat) - 2 <= len (mkSlice [10; 20; 30]%nat 1)
   <= len (slice_of [10; 20; 30]%nat))%nat.
Proof.
  assert (W : wf_slice (slice_of [10; 20; 30]%nat))
    by (split; [cbn; lia | vm_compute; discriminate]).
  assert (R : GoInt.in_range 3) by (vm_compute; split; discriminate).
  assert (E : RemoveRow (slice_of [10; 20; 30]%nat) 3
              = Some (mkSlice [10; 20; 30]%nat 1)) by reflexivity.
  split; [exact W|]. split; [exact R|]. split; [exact E|].
  exact (RemoveRow_result_within_rows nat (slice_of [10; 20; 30]%nat)
           (mkSlice [10; 20; 30]%nat 1) 3 W R E).
Defined.

(** X6. Removing the last row twice with the same index removes three
    rows: the second call meets an index equal to the new length and
    takes the branch that drops two. *)
Theorem RemoveRow_last_index_twice (A : Type) (rows : slice A) :
  wf_slice rows -> (3 <= len rows)%nat ->
  exists r1 r2,
    RemoveRow rows (Z.of_nat (len rows) - 1) = Some r1 /\
    RemoveRow r1 (Z.of_nat (len rows) - 1) = Some r2 /\
    elems r2 = firstn (len rows - 3) (elems rows).
Proof.
  intros W H3. pose proof W as [Hlen Hcap].
  rewrite (RemoveRow_inside_value rows _ W) by lia.
  replace (Z.to_nat (Z.of_nat (len rows) - 1)) with (len rows - 1)%nat by lia.
  set (r1 := mkSlice _ (len rows - 1)).
  assert (L1 : len r1 = (len rows - 1)%nat) by reflexivity.
  assert (C1 : cap r1 = cap rows) by (apply cap_inside_value; lia).
  assert (W1 : wf_slice r1) by (split; [rewrite L1, C1; lia | now rewrite C1]).
  exists r1. eexists. split; [reflexivity|].
  replace (Z.of_nat (len rows) - 1) with (Z.of_nat (len r1)) by (rewrite L1; lia).
  rewrite (RemoveRow_at_len r1 W1).
  replace (2 <=? len r1)%nat with true by (symmetry; apply Nat.leb_le; lia).
  split; [reflexivity|].
  rewrite elems_shorter by lia. rewrite L1.
  unfold r1. rewrite elems_inside_value by lia.
  rewrite firstn_app.
  rewrite length_firstn, (length_elems rows Hlen).
  replace (len rows - 1 - 2 - Nat.min (len rows - 1) (len rows))%nat with 0%nat by lia.
  cbn [firstn]. rewrite app_nil_r, firstn_firstn.
  f_equal. lia.
Qed.

Lemma RemoveRow_last_index_twice_witness :
  wf_slice (slice_of [10; 20; 30; 40]%nat) /\
  (3 <= len (slice_of [10; 20; 30; 40]%nat))%nat /\
  exists r1 r2,
    RemoveRow (slice_of [10; 20; 30; 40]%nat) 3 = Some r1 /\
    RemoveRow r1 3 = Some r2 /\
    elems r2 = firstn 1 (elems (slice_of [10; 20; 30; 40]%nat)).
Proof.
  assert (W : wf_slice (slice_of [10; 20; 30; 40]%nat))
    by (split; [cbn; lia | vm_compute; discriminate]).
  assert (L : (3 <= len (slice_of [10; 20; 30; 40]%nat))%nat) by (cbn; lia).
  split; [exact W|]. split; [exact L|].
  exact (RemoveRow_last_index_twice nat (slice_of [10; 20; 30; 40]%nat) W L).
Defined.

(** ** float64: the order of integers *)

Lemma digits2_lt_lt p q :
  Zpos (digits2_pos p) < Zpos (digits2_pos q) -> (p < q)%positive.
Proof.
  rewrite !digits2_log2. intros H.
  unfold Pos.lt. rewrite Pos2Z.inj_compare.
  apply Z.log2_lt_cancel. lia.
Qed.

Lemma mant_compare p q :
  Zpos (digits2_pos p) <= 53 -> digits2_pos p = digits2_pos q ->
  (F64.mant p ?= F64.mant q)%positive = (p ?= q)%positive.
Proof.
  intros Hp E.
  rewrite !Pos2Z.inj_compare, (Zpos_mant p Hp), (Zpos_mant q) by (rewrite <- E; exact Hp).
  rewrite E.
  assert (K : 0 < 2 ^ (53 - Zpos (digits2_pos q)))
    by (apply Z.pow_pos_nonneg; [lia | rewrite <- E; lia]).
  set (k := 2 ^ (53 - Zpos (digits2_pos q))) in *.
  destruct (Z.compare_spec (Zpos p * k) (Zpos q * k)),
    (Z.compare_spec (Zpos p) (Zpos q)); try reflexivity; nia.
Qed.

Lemma exponent_mantissa_compare p q :
  Zpos (digits2_pos p) <= 53 -> Zpos (digits2_pos q) <= 53 ->
  match Zpos (digits2_pos p) - 53 ?= Zpos (digits2_pos q) - 53 with
  | Lt => Lt
  | Gt => Gt
  | Eq => Pos.compare_cont Eq (F64.mant p) (F64.mant q)
  end = (p ?= q)%positive.
Proof.
  intros Hp Hq.
  destruct (Z.compare_spec (Zpos (digits2_pos p) - 53) (Zpos (digits2_pos q) - 53))
    as [E|L|G].
  - change (Pos.compare_cont Eq (F64.mant p) (F64.mant q))
      with (F64.mant p ?= F64.mant q)%positive.
    apply mant_compare; [exact Hp|]. apply Pos2Z.inj. lia.
  - symmetry. apply Pos.compare_lt_iff, digits2_lt_lt. lia.
  - symmetry. apply Pos.compare_gt_iff, digits2_lt_lt. lia.
Qed.

(** On integers of at most 53 bits, [float64] keeps the order. *)
Lemma of_Z_compare n m :
  - 2 ^ 53 < n < 2 ^ 53 -> - 2 ^ 53 < m < 2 ^ 53 ->
  SFcompare (F64.of_Z n) (F64.of_Z m) = Some (n ?= m).
Proof.
  intros Hn Hm.
  assert (D : forall p, Zpos p < 2 ^ 53 -> Zpos (digits2_pos p) <= 53)
    by (intros p Hp; apply digits2_le; lia).
  destruct n as [|p|p], m as [|q|q]; try reflexivity;
    unfold F64.of_Z, binary_normalize;
    rewrite ?binary_round_integer by (apply D; lia);
    try reflexivity.
  - cbn [SFcompare]. f_equal.
    rewrite exponent_mantissa_compare by (apply D; lia). reflexivity.
  - cbn [SFcompare]. f_equal.
    change (Zneg p ?= Zneg q) with (CompOpp (p ?= q)%positive).
    rewrite <- (exponent_mantissa_compare p q) by (apply D; lia).
    now destruct (Zpos (digits2_pos p) - 53 ?= Zpos (digits2_pos q) - 53).
Qed.

(** ** SerialDate on every date *)

(** [Hours] of the largest and of the smallest duration, divided by 24. *)
Lemma Hours_maxDuration :
  F64.div (time.Hours time.maxDuration) (F64.of_Z 24)
  = S754_finite false 7335940973542995 (-36).
Proof. vm_compute. reflexivity. Qed.

Lemma Hours_minDuration :
  F64.div (time.Hours time.minDuration) (F64.of_Z 24)
  = S754_finite true 7335940973542995 (-36).
Proof. vm_compute. reflexivity. Qed.

(** X7. For a value that parses to a midnight at most 106751 days
    before or after December 30, 1899, [SerialDate] returns exactly that
    number of days as a [float64], negative before the start date, and no
    error. *)
Theorem SerialDate_exact_within_range
  (P : TimeParse) (value layout : string) (t : time.Time) (n : Z) :
  parses_start_date ->
  time_Parse layout value = (t, None) ->
  time.nsec t = 0 ->
  time.sec t - time.sec (time.Date 1899 12 30 0 0 0 0) = n * 86400 ->
  -106751 <= n <= 106751 ->
  SerialDate value layout = (F64.of_Z n, None).
Proof. intros Hs Hp Hn Hd Hr. now apply (SerialDate_whole_days value layout t n). Qed.

Lemma SerialDate_exact_within_range_witness :
  @parses_start_date time.Parse /\
  time.Parse "2006-01-02" "1899-12-01" = (time.Date 1899 12 1 0 0 0 0, None) /\
  @SerialDate time.Parse "1899-12-01" "2006-01-02" = (F64.of_Z (-29), None).
Proof.
  split; [exact Parse_start_date|]. split; [reflexivity|].
  apply (SerialDate_exact_within_range time.Parse "1899-12-01" "2006-01-02"
           (time.Date 1899 12 1 0 0 0 0) (-29) Parse_start_date);
    [reflexivity | reflexivity | reflexivity | lia].
Defined.

(** X8. Every date more than 106751 days after the start date gets one
    and the same serial number, about 106751.99, and every date more than
    106751 days before it the opposite number: the duration between the
    dates no longer fits a [Duration], and no error is returned. *)
Theorem SerialDate_saturates
  (P : TimeParse) (value layout : string) (t : time.Time) (n : Z) :
  parses_start_date ->
  time_Parse layout value = (t, None) ->
  time.nsec t = 0 ->
  time.sec t - time.sec (time.Date 1899 12 30 0 0 0 0) = n * 86400 ->
  (106751 < n ->
   SerialDate value layout = (S754_finite false 7335940973542995 (-36), None)) /\
  (n < -106751 ->
   SerialDate value layout = (S754_finite true 7335940973542995 (-36), None)).
Proof.
  intros Hs Hp Hn Hd.
  rewrite (SerialDate_Parse_ok _ _ _ Hs Hp).
  assert (Hn' : time.nsec t = time.nsec (time.Date 1899 12 30 0 0 0 0))
    by (rewrite Hn; reflexivity).
  destruct (Sub_saturates t _ n Hn' Hd) as [Hmax Hmin].
  split; intros Hr.
  - now rewrite (Hmax Hr), Hours_maxDuration.
  - now rewrite (Hmin Hr), Hours_minDuration.
Qed.

Lemma SerialDate_saturates_witness :
  @parses_start_date time.Parse /\
  time.Parse "2006-01-02" "2500-07-04" = (time.Date 2500 7 4 0 0 0 0, None) /\
  @SerialDate time.Parse "2500-07-04" "2006-01-02"
  = (S754_finite false 7335940973542995 (-36), None) /\
  @SerialDate time.Parse "3000-01-01" "2006-01-02"
  = (S754_finite false 7335940973542995 (-36), None).
Proof.
  split; [exact Parse_start_date|]. split; [reflexivity|]. split.
  - apply (proj1 (SerialDate_saturates time.Parse "2500-07-04" "2006-01-02"
                    (time.Date 2500 7 4 0 0 0 0) 219332 Parse_start_date
                    eq_refl eq_refl eq_refl)).
    lia.
  - apply (proj1 (SerialDate_saturates time.Parse "3000-01-01" "2006-01-02"
                    (time.Date 3000 1 1 0 0 0 0) 401769 Parse_start_date
                    eq_refl eq_refl eq_refl)).
    lia.
Defined.

(** X9. Within that range [SerialDate] keeps the order of dates: the
    serial numbers of two dates compare as the dates do, so distinct days
    get distinct numbers and a later day a larger one. *)
Theorem SerialDate_keeps_order
  (P : TimeParse) (value1 layout1 value2 layout2 : string)
  (t1 t2 : time.Time) (n1 n2 : Z) :
  parses_start_date ->
  time_Parse layout1 value1 = (t1, None) ->
  time_Parse layout2 value2 = (t2, None) ->
  time.nsec t1 = 0 -> time.nsec t2 = 0 ->
  time.sec t1 - time.sec (time.Date 1899 12 30 0 0 0 0) = n1 * 86400 ->
  time.sec t2 - time.sec (time.Date 1899 12 30 0 0 0 0) = n2 * 86400 ->
  -106751 <= n1 <= 106751 -> -106751 <= n2 <= 106751 ->
  SFcompare (fst (SerialDate value1 layout1)) (fst (SerialDate value2 layout2))
  = Some (n1 ?= n2).
Proof.
  intros Hs Hp1 Hp2 Hn1 Hn2 Hd1 Hd2 Hr1 Hr2.
  rewrite (SerialDate_whole_days value1 layout1 t1 n1) by assumption.
  rewrite (SerialDate_whole_days value2 layout2 t2 n2) by assumption.
  cbn [fst]. apply of_Z_compare; lia.
Qed.

Lemma SerialDate_keeps_order_witness :
  @parses_start_date time.Parse /\
  SFcompare (fst (@SerialDate time.Parse "12/25/1899" "1/2/2006"))
    (fst (@SerialDate time.Parse "2023-03-02" "2006-01-02"))
  = Some Lt.
Proof.
  split; [exact Parse_start_date|].
  assert (R1 : -106751 <= -5 <= 106751) by lia.
  assert (R2 : -106751 <= 44987 <= 106751) by lia.
  exact (SerialDate_keeps_order time.Parse "12/25/1899" "1/2/2006"
           "2023-03-02" "2006-01-02"
           (time.Date 1899 12 25 0 0 0 0) (time.Date 2023 3 2 0 0 0 0)
           (-5) 44987 Parse_start_date eq_refl eq_refl eq_refl eq_refl
           eq_refl eq_refl R1 R2).
Defined.

(** ** Borders, setters and cells *)

(** X10. Every border that [CellBorders] returns is complete: its style
    is not empty and its color is not [nil], whatever the configuration
    leaves out. *)
Theorem CellBorders_borders_complete
  (conf : BorderConf.t) (border : sheets.Border.t) :
  In (Some border)
     [sheets.Borders.Bottom (CellBorders conf); sheets.Borders.Left (CellBorders conf);
      sheets.Borders.Right (CellBorders conf); sheets.Borders.Top (CellBorders conf)] ->
  sheets.Border.Style border <> EmptyString /\
  sheets.Border.ColorStyle border <> None /\
  (BorderConf.Style conf <> EmptyString ->
   sheets.Border.Style border = BorderConf.Style conf).
Proof.
  destruct conf as [bottom left right style top color].
  unfold CellBorders; cbn [BorderConf.Style BorderConf.Color BorderConf.Bottom
    BorderConf.Left BorderConf.Right BorderConf.Top].
  intros H.
  assert (E : border =
    sheets.Border.mk
      (match color with None => Some BLACK_COLOR | Some _ => color end)
      (if String.eqb style "" then "SOLID"%string else style)).
  { destruct bottom, left, right, top; cbn in H;
      repeat (destruct H as [H|H]; [try discriminate H; congruence|]);
      contradiction H. }
  subst border. cbn [sheets.Border.Style sheets.Border.ColorStyle].
  split; [|split].
  - destruct (String.eqb_spec style ""); [discriminate | assumption].
  - destruct color; discriminate.
  - intros Hs. destruct (String.eqb_spec style ""); [contradiction | reflexivity].
Qed.

Lemma CellBorders_borders_complete_witness :
  In (Some (sheets.Border.mk (Some BLACK_COLOR) "SOLID"))
     [sheets.Borders.Bottom (CellBorders (BorderConf.mk false true false "" false None));
      sheets.Borders.Left (CellBorders (BorderConf.mk false true false "" false None));
      sheets.Borders.Right (CellBorders (BorderConf.mk false true false "" false None));
      sheets.Borders.Top (CellBorders (BorderConf.mk false true false "" false None))] /\
  sheets.Border.Style (sheets.Border.mk (Some BLACK_COLOR) "SOLID") <> EmptyString.
Proof.
  assert (H : In (Some (sheets.Border.mk (Some BLACK_COLOR) "SOLID"))
     [sheets.Borders.Bottom (CellBorders (BorderConf.mk false true false "" false None));
      sheets.Borders.Left (CellBorders (BorderConf.mk false true false "" false None));
      sheets.Borders.Right (CellBorders (BorderConf.mk false true false "" false None));
      sheets.Borders.Top (CellBorders (BorderConf.mk false true false "" false None))])
    by (right; left; reflexivity).
  split; [exact H|].
  exact (proj1 (CellBorders_borders_complete _ _ H)).
Defined.

(** X11. Setters of different fields commute, and of two calls of the
    same setter the last one wins: a chain of setters can be reordered
    and shortened without changing the styler. *)
Theorem setters_commute_last_wins (s : Styler.t) (a b : setting) :
  (written a <> written b -> call (call s a) b = call (call s b) a) /\
  (written a = written b -> call (call s a) b = call s b).
Proof.
  destruct s as [bold family size date number horizontal vertical].
  split; intros H; destruct a, b; cbn in H; try congruence; reflexivity.
Qed.

Lemma setters_commute_last_wins_witness :
  call (call NewStyler (SetFontBold true)) (SetHorizontalAlignment "MIDDLE")
  = call (call NewStyler (SetHorizontalAlignment "MIDDLE")) (SetFontBold true) /\
  call (call NewStyler (SetFontSize 12)) (SetFontSize 10)
  = call NewStyler (SetFontSize 10).
Proof.
  split.
  - apply (proj1 (setters_commute_last_wins NewStyler (SetFontBold true)
                    (SetHorizontalAlignment "MIDDLE"))).
    discriminate.
  - apply (proj2 (setters_commute_last_wins NewStyler (SetFontSize 12)
                    (SetFontSize 10))).
    reflexivity.
Defined.

(** The alignments a styler should hold: never empty, and the horizontal
    one never the alias MIDDLE. *)
Lemma call_keeps_alignments (s : Styler.t) (c : setting) :
  (Styler.horizontalAlignment s <> EmptyString /\
   Styler.horizontalAlignment s <> "MIDDLE"%string /\
   Styler.verticalAlignment s <> EmptyString) ->
  Styler.horizontalAlignment (call s c) <> EmptyString /\
  Styler.horizontalAlignment (call s c) <> "MIDDLE"%string /\
  Styler.verticalAlignment (call s c) <> EmptyString.
Proof.
  intros (H1 & H2 & H3). destruct s as [bold family size date number h v].
  cbn in H1, H2, H3.
  destruct c as [x|x|x|x|x|x|x]; cbn; try (repeat split; assumption).
  - destruct (String.eqb_spec x "") as [->|Hx]; cbn.
    + repeat split; [discriminate | discriminate | assumption].
    + destruct (String.eqb_spec x "MIDDLE") as [->|Hm]; cbn.
      * repeat split; [discriminate | discriminate | assumption].
      * repeat split; assumption.
  - destruct (String.eqb_spec x "") as [->|Hx]; cbn.
    + repeat split; [assumption | assumption | discriminate].
    + repeat split; assumption.
Qed.

Lemma fold_call_keeps_alignments (calls : list setting) (s : Styler.t) :
  (Styler.horizontalAlignment s <> EmptyString /\
   Styler.horizontalAlignment s <> "MIDDLE"%string /\
   Styler.verticalAlignment s <> EmptyString) ->
  Styler.horizontalAlignment (fold_left call calls s) <> EmptyString /\
  Styler.horizontalAlignment (fold_left call calls s) <> "MIDDLE"%string /\
  Styler.verticalAlignment (fold_left call calls s) <> EmptyString.
Proof.
  revert s. induction calls as [|c calls IH]; intros s H; cbn [fold_left].
  - exact H.
  - apply IH, call_keeps_alignments, H.
Qed.

(** X12. A styler made by [NewStyler] and any chain of setters never
    holds an empty alignment, and never the horizontal alignment MIDDLE:
    the setters replace the empty string by the default and MIDDLE by
    CENTER. *)
Theorem chained_styler_alignments (calls : list setting) :
  Styler.horizontalAlignment (chained calls) <> EmptyString /\
  Styler.horizontalAlignment (chained calls) <> "MIDDLE"%string /\
  Styler.verticalAlignment (chained calls) <> EmptyString.
Proof.
  apply fold_call_keeps_alignments. cbn. repeat split; discriminate.
Qed.

(** X13. Every cell built with such a styler, by any of the cell
    builders, has a format and exactly one value; the format holds the
    two alignments of the styler, neither of them empty, its font, and
    borders exactly when a border configuration was given. *)
Theorem cells_of_chained_styler
  (P : TimeParse) (calls : list setting) (borders : option BorderConf.t)
  (text date layout : string) (flag : bool) (number : float64)
  (cell : sheets.CellData.t) :
  cell = Styler.TextCell (chained calls) text borders \/
  cell = Styler.BoolCell (chained calls) flag borders \/
  cell = Styler.NumberCell (chained calls) number borders \/
  cell = Styler.AccountingCell (chained calls) number borders \/
  cell = Styler.DateCell (chained calls) date layout borders ->
  exists format value,
    sheets.CellData.UserEnteredFormat cell = Some format /\
    sheets.CellData.UserEnteredValue cell = Some value /\
    valuesSet value = 1%nat /\
    sheets.CellFormat.HorizontalAlignment format
    = Styler.horizontalAlignment (chained calls) /\
    sheets.CellFormat.HorizontalAlignment format <> EmptyString /\
    sheets.CellFormat.HorizontalAlignment format <> "MIDDLE"%string /\
    sheets.CellFormat.VerticalAlignment format
    = Styler.verticalAlignment (chained calls) /\
    sheets.CellFormat.VerticalAlignment format <> EmptyString /\
    sheets.CellFormat.TextFormat format = Some (Styler.TextFormat (chained calls)) /\
    sheets.CellFormat.Borders format = option_map CellBorders borders.
Proof.
  assert (H : Styler.horizontalAlignment (chained calls) <> EmptyString /\
              Styler.horizontalAlignment (chained calls) <> "MIDDLE"%string /\
              Styler.verticalAlignment (chained calls) <> EmptyString).
  { apply fold_call_keeps_alignments. cbn. repeat split; discriminate. }
  destruct H as (H1 & H2 & H3).
  set (s := chained calls) in *.
  intros [E|[E|[E|[E|E]]]]; subst cell.
  - destruct borders; eexists; eexists; repeat split; assumption.
  - destruct borders; eexists; eexists; repeat split; assumption.
  - destruct borders; eexists; eexists; repeat split; assumption.
  - destruct borders; eexists; eexists; repeat split; assumption.
  - unfold Styler.DateCell.
    destruct (SerialDate date layout) as [serialDate [e|]];
      destruct borders; eexists; eexists; repeat split; assumption.
Qed.

Lemma cells_of_chained_styler_witness :
  exists format value,
    sheets.CellData.UserEnteredFormat
      (Styler.NumberCell (chained [SetHorizontalAlignment "MIDDLE"]) (F64.of_Z 7) None)
    = Some format /\
    sheets.CellData.UserEnteredValue
      (Styler.NumberCell (chained [SetHorizontalAlignment "MIDDLE"]) (F64.of_Z 7) None)
    = Some value /\
    valuesSet value = 1%nat /\
    sheets.CellFormat.HorizontalAlignment format = "CENTER"%string.
Proof.
  destruct (cells_of_chained_styler time.Parse [SetHorizontalAlignment "MIDDLE"]
              None "" "" "" false (F64.of_Z 7)
              (Styler.NumberCell (chained [SetHorizontalAlignment "MIDDLE"])
                 (F64.of_Z 7) None)
              (or_intror (or_intror (or_introl eq_refl))))
    as (format & value & Hf & Hv & H1 & Hh & _).
  exists format, value. repeat split; assumption.
Defined.

(** The loop of [CreateHeaderRow]: appending one element at a time to a
    slice without spare capacity keeps it so and adds the elements in
    order. *)
Lemma fold_append_full {A B : Type} (f : B -> A) (l : list B) (acc : slice A) :
  len acc = cap acc ->
  let r := fold_left (fun cells x => append cells (slice_of [f x])) l acc in
  len r = cap r /\ elems r = elems acc ++ map f l.
Proof.
  revert acc. induction l as [|x l IH]; intros acc Hfull; cbn [fold_left map].
  - split; [exact Hfull | now rewrite app_nil_r].
  - assert (Hacc : elems acc = array acc).
    { unfold elems. apply firstn_all2. unfold cap in Hfull. lia. }
    assert (Happ : append acc (slice_of [f x])
                   = mkSlice (array acc ++ [f x]) (len acc + 1)).
    { unfold append. cbn [slice_of len].
      replace (len acc + length [f x] <=? cap acc)%nat with false
        by (symmetry; apply Nat.leb_gt; cbn; lia).
      rewrite Hacc. reflexivity. }
    rewrite Happ.
    destruct (IH (mkSlice (array acc ++ [f x]) (len acc + 1))) as [Hr He].
    { unfold cap; cbn [array len]. rewrite length_app. cbn.
      unfold cap in Hfull. lia. }
    split; [exact Hr|]. rewrite He.
    replace (elems (mkSlice (array acc ++ [f x]) (len acc + 1)))
      with (array acc ++ [f x]).
    + rewrite Hacc, <- app_assoc. reflexivity.
    + unfold elems; cbn [array len]. symmetry. apply firstn_all2.
      rewrite length_app. cbn. unfold cap in Hfull. lia.
Qed.

(** X14. [CreateHeaderRow] returns exactly one row; the row holds one
    text cell per header value, in the order of the values, and reading
    the texts of the cells gives the header values back.  No header value
    gives one row without cells. *)
Theorem CreateHeaderRow_one_row_of_text_cells
  (s : Styler.t) (headerValues : list string) (borders : option BorderConf.t) :
  exists row,
    elems (Styler.CreateHeaderRow s headerValues borders) = [row] /\
    len (Styler.CreateHeaderRow s headerValues borders) = 1%nat /\
    elems (sheets.RowData.Values row)
    = map (fun val => Styler.TextCell s val borders) headerValues /\
    map (fun cell =>
           match sheets.CellData.UserEnteredValue cell with
           | Some value => sheets.ExtendedValue.StringValue value
           | None => None
           end)
        (elems (sheets.RowData.Values row))
    = map Some headerValues.
Proof.
  unfold Styler.CreateHeaderRow.
  destruct (fold_append_full (fun val => Styler.TextCell s val borders)
              headerValues nil_slice eq_refl) as [_ He].
  change (elems nil_slice) with (@nil sheets.CellData.t) in He.
  cbn [app] in He.
  eexists. split; [reflexivity|]. split; [reflexivity|].
  cbn [sheets.RowData.Values]. split; [exact He|].
  rewrite He, map_map. apply map_ext. intros val. reflexivity.
Qed.

(** X15. For a date that parses to a day within the range, the cell of
    [DateCell] holds that exact number of days in the number field of its
    value, and no other value field; its format holds the date pattern
    of the styler with the type DATE, the alignments and the font of the
    styler, and borders exactly when a configuration is given. *)
Theorem DateCell_number_is_day_count
  (P : TimeParse) (s : Styler.t) (date layout : string)
  (borders : option BorderConf.t) (t : time.Time) (n : Z) :
  parses_start_date ->
  time_Parse layout date = (t, None) ->
  time.nsec t = 0 ->
  time.sec t - time.sec (time.Date 1899 12 30 0 0 0 0) = n * 86400 ->
  -106751 <= n <= 106751 ->
  exists format value numberFormat textFormat,
    sheets.CellData.UserEnteredFormat (Styler.DateCell s date layout borders)
    = Some format /\
    sheets.CellData.UserEnteredValue (Styler.DateCell s date layout borders)
    = Some value /\
    sheets.ExtendedValue.NumberValue value = Some (F64.of_Z n) /\
    sheets.ExtendedValue.StringValue value = None /\
    sheets.ExtendedValue.BoolValue value = None /\
    sheets.ExtendedValue.FormulaValue value = None /\
    sheets.CellFormat.NumberFormat format = Some numberFormat /\
    sheets.NumberFormat.Pattern numberFormat = Styler.datePattern s /\
    sheets.NumberFormat.Type_ numberFormat = "DATE"%string /\
    sheets.CellFormat.HorizontalAlignment format = Styler.horizontalAlignment s /\
    sheets.CellFormat.VerticalAlignment format = Styler.verticalAlignment s /\
    sheets.CellFormat.TextFormat format = Some textFormat /\
    sheets.TextFormat.Bold textFormat = Styler.fontBold s /\
    sheets.TextFormat.FontFamily textFormat = Styler.fontFamily s /\
    sheets.TextFormat.FontSize textFormat = Styler.fontSize s /\
    sheets.CellFormat.Borders format = option_map CellBorders borders.
Proof.
  intros Hs Hp Hn Hd Hr.
  pose proof (SerialDate_whole_days date layout t n Hs Hp Hn Hd Hr) as E.
  rewrite (DateCell_on_success s date layout borders) by (now rewrite E).
  rewrite E. cbn [fst].
  eexists. eexists. eexists. eexists. repeat split.
Qed.

Lemma DateCell_number_is_day_count_witness :
  @parses_start_date time.Parse /\
  exists format value numberFormat textFormat,
    sheets.CellData.UserEnteredFormat
      (@Styler.DateCell time.Parse NewStyler "1900-03-01" "2006-01-02" None)
    = Some format /\
    sheets.CellData.UserEnteredValue
      (@Styler.DateCell time.Parse NewStyler "1900-03-01" "2006-01-02" None)
    = Some value /\
    sheets.ExtendedValue.NumberValue value = Some (F64.of_Z 61) /\
    sheets.ExtendedValue.StringValue value = None /\
    sheets.ExtendedValue.BoolValue value = None /\
    sheets.ExtendedValue.FormulaValue value = None /\
    sheets.CellFormat.NumberFormat format = Some numberFormat /\
    sheets.NumberFormat.Pattern numberFormat = Styler.datePattern NewStyler /\
    sheets.NumberFormat.Type_ numberFormat = "DATE"%string /\
    sheets.CellFormat.HorizontalAlignment format = Styler.horizontalAlignment NewStyler /\
    sheets.CellFormat.VerticalAlignment format = Styler.verticalAlignment NewStyler /\
    sheets.CellFormat.TextFormat format = Some textFormat /\
    sheets.TextFormat.Bold textFormat = Styler.fontBold NewStyler /\
    sheets.TextFormat.FontFamily textFormat = Styler.fontFamily NewStyler /\
    sheets.TextFormat.FontSize textFormat = Styler.fontSize NewStyler /\
    sheets.CellFormat.Borders format = option_map CellBorders None.
Proof.
  split; [exact Parse_start_date|].
  assert (R : -106751 <= 61 <= 106751) by lia.
  exact (DateCell_number_is_day_count time.Parse NewStyler
           "1900-03-01" "2006-01-02" None (time.Date 1900 3 1 0 0 0 0) 61
           Parse_start_date eq_refl eq_refl eq_refl R).
Defined.

(** ** Reading and updating a sheet *)

(** X16. [GetSheetData] asks for the one range it is given, with the
    grid data.  It succeeds exactly when the client returns a spreadsheet
    whose first sheet has a first grid, and then returns the rows of that
    grid, even if there are none; the other sheets and grids are dropped.
    With an error the rows are [nil], and the error is the one of the
    client or "no sheet data found". *)
Theorem GetSheetData_outcomes
  (Row ApiError : Type) (srv : Service Row ApiError) (ssid readRange : string) :
  (snd (GetSheetData ssid readRange srv) = None <->
   exists sheet others grid grids,
     Spreadsheets_Get srv ssid [readRange] true
     = inl (sheets.Spreadsheet.mk (sheets.Sheet.mk (grid :: grids) :: others)) /\
     fst (GetSheetData ssid readRange srv) = sheets.GridData.RowData grid /\
     sheet = sheets.Sheet.mk (grid :: grids)) /\
  (forall e, snd (GetSheetData ssid readRange srv) = Some e ->
     fst (GetSheetData ssid readRange srv) = nil_slice /\
     ((exists err, Spreadsheets_Get srv ssid [readRange] true = inr err /\
                   e = clientError err) \/
      e = errors_New "no sheet data found")).
Proof.
  unfold GetSheetData.
  destruct (Spreadsheets_Get srv ssid [readRange] true) as [[[|[[|grid grids]] others]]|err];
    cbn [sheets.Spreadsheet.Sheets sheets.Sheet.Data fst snd]; split.
  - split; [discriminate|]. intros (? & ? & ? & ? & H & _). discriminate H.
  - intros e H. injection H as <-. split; [reflexivity | now right].
  - split; [discriminate|]. intros (? & ? & ? & ? & H & _). discriminate H.
  - intros e H. injection H as <-. split; [reflexivity | now right].
  - split; [intros _|reflexivity].
    exists (sheets.Sheet.mk (grid :: grids)), others, grid, grids. now repeat split.
  - intros e H. discriminate H.
  - split; [discriminate|]. intros (? & ? & ? & ? & H & _). discriminate H.
  - intros e H. injection H as <-. split; [reflexivity|]. left. now exists err.
Qed.

(** X17. After a read that failed the rows are [nil], so removing row 0
    from them panics: the error of [GetSheetData] must be checked before
    [RemoveRow] is called with the index 0. *)
Theorem RemoveRow_after_failed_read_panics
  (Row ApiError : Type) (srv : Service Row ApiError) (ssid readRange : string) :
  snd (GetSheetData ssid readRange srv) <> None ->
  RemoveRow (fst (GetSheetData ssid readRange srv)) 0 = None.
Proof.
  unfold GetSheetData.
  destruct (Spreadsheets_Get srv ssid [readRange] true) as [[[|[[|grid grids]] others]]|err];
    cbn [sheets.Spreadsheet.Sheets sheets.Sheet.Data fst snd]; intros H;
    try reflexivity.
  now contradiction H.
Qed.

Lemma RemoveRow_after_failed_read_panics_witness :
  snd (GetSheetData "id" "Sheet1!A1:D5"
         (mkService (Row := nat) (ApiError := string)
            (fun _ _ _ => inl (sheets.Spreadsheet.mk []))
            (fun _ _ => None))) <> None /\
  RemoveRow
    (fst (GetSheetData "id" "Sheet1!A1:D5"
            (mkService (Row := nat) (ApiError := string)
               (fun _ _ _ => inl (sheets.Spreadsheet.mk []))
               (fun _ _ => None)))) 0 = None.
Proof.
  assert (H : snd (GetSheetData "id" "Sheet1!A1:D5"
                     (mkService (Row := nat) (ApiError := string)
                        (fun _ _ _ => inl (sheets.Spreadsheet.mk []))
                        (fun _ _ => None))) <> None)
    by (cbn; discriminate).
  split; [exact H|].
  exact (RemoveRow_after_failed_read_panics nat string _ "id" "Sheet1!A1:D5" H).
Defined.

(** X18. [UpdateSheetData] sends one request, whatever the service: it
    updates all fields of the rows it was given, in a range that starts
    at the given row and spans as many rows as there are, provided the
    end row fits an [int64]; the result is the error of the client, or
    [nil]. *)
Theorem UpdateSheetData_request
  (Row ApiError : Type) (ssid : string)
  (endColumnIndex gid startColumnIndex startRowIndex : Z) (newVals : slice Row) :
  GoInt.in_range (startRowIndex + Z.of_nat (len newVals)) ->
  exists request cells range,
    (forall srv : Service Row ApiError,
       UpdateSheetData ssid endColumnIndex gid startColumnIndex startRowIndex
         newVals srv
       = option_map clientError (Spreadsheets_BatchUpdate srv ssid request)) /\
    sheets.BatchUpdateSpreadsheetRequest.IncludeSpreadsheetInResponse request = false /\
    sheets.BatchUpdateSpreadsheetRequest.Requests request
    = [sheets.Request.mk (Some cells)] /\
    sheets.UpdateCellsRequest.Fields cells = "*"%string /\
    sheets.UpdateCellsRequest.Rows cells = newVals /\
    sheets.UpdateCellsRequest.Range cells = Some range /\
    sheets.GridRange.SheetId range = gid /\
    sheets.GridRange.StartColumnIndex range = startColumnIndex /\
    sheets.GridRange.EndColumnIndex range = endColumnIndex /\
    sheets.GridRange.StartRowIndex range = startRowIndex /\
    sheets.GridRange.EndRowIndex range - sheets.GridRange.StartRowIndex range
    = Z.of_nat (len newVals).
Proof.
  intros Hr.
  set (range := sheets.GridRange.mk endColumnIndex
                  (startRowIndex + Z.of_nat (len newVals))
                  gid startColumnIndex startRowIndex).
  set (cells := sheets.UpdateCellsRequest.mk "*" (Some range) newVals).
  exists (sheets.BatchUpdateSpreadsheetRequest.mk false
            [sheets.Request.mk (Some cells)]), cells, range.
  split.
  - intros srv. unfold UpdateSheetData.
    rewrite add_in_range by assumption. fold range. fold cells.
    cbn [app].
    now destruct (Spreadsheets_BatchUpdate srv ssid _).
  - cbn. repeat split. lia.
Qed.

Lemma UpdateSheetData_request_witness :
  GoInt.in_range (1 + Z.of_nat (len (slice_of [10; 20; 30]%nat))) /\
  exists request cells range,
    (forall srv : Service nat string,
       UpdateSheetData "id" 6 0 1 1 (slice_of [10; 20; 30]%nat) srv
       = option_map clientError (Spreadsheets_BatchUpdate srv "id" request)) /\
    sheets.BatchUpdateSpreadsheetRequest.Requests request
    = [sheets.Request.mk (Some cells)] /\
    sheets.UpdateCellsRequest.Range cells = Some range /\
    sheets.GridRange.EndRowIndex range = 4.
Proof.
  assert (H : GoInt.in_range (1 + Z.of_nat (len (slice_of [10; 20; 30]%nat))))
    by (vm_compute; split; discriminate).
  split; [exact H|].
  destruct (UpdateSheetData_request nat string "id" 6 0 1 1
              (slice_of [10; 20; 30]%nat) H)
    as (request & cells & range & Hsend & _ & Hreq & _ & _ & Hrange & _ & _ & _ & Hstart & Hspan).
  exists request, cells, range.
  split; [exact Hsend|]. split; [exact Hreq|]. split; [exact Hrange|].
  rewrite Hstart in Hspan. cbn in Hspan. lia.
Defined.
